(** * Skill scaffolding and validation: [init_skill.py] and [quick_validate.py]

    A shallow embedding of the two scripts under
    [skills/authoring-skills/scripts/] and the properties of the
    specification that are about them.

    Conventions of the embedding.
    - A Python [str] is a [string]; a character is a code point below 256.
    - A [dict] whose insertion order is never observed ([frontmatter]) is a
      [gmap string string]; a [set] of strings is a [gset string].
    - A resolved [pathlib.Path] is the list of its components, the last
      one first.
    - The filesystem is a finite map from paths to nodes, threaded
      explicitly; an operation that can raise [OSError] returns an
      [outcome], and [init_skill], which also prints, runs in a state
      and error monad over the filesystem and the lines printed. *)

From Stdlib Require Import Ascii String List Bool Arith Lia.
From Stdlib Require DecimalString.
From stdpp Require Import base tactics option list gmap strings sorting.

(** ** Characters and Python string methods *)

Definition LF : ascii := "010"%char.
Definition CR : ascii := "013"%char.
Definition DQUOTE : ascii := "034"%char.
Definition SQUOTE : ascii := "039"%char.

(** The string ["\n"]. *)
Definition nl : string := String LF "".

(** [str.isspace] on one character, which is what [str.strip()] and the
    regular expression class [\s] consult: TAB..CR, FS..US, space, NEL and
    the no-break space are the code points below 256 that qualify. *)
Definition is_space (c : ascii) : bool :=
  let n := nat_of_ascii c in
  ((9 <=? n) && (n <=? 13)) || ((28 <=? n) && (n <=? 31))
  || (n =? 32) || (n =? 133) || (n =? 160).

Definition is_lower  (c : ascii) : bool :=
  let n := nat_of_ascii c in (97 <=? n) && (n <=? 122).
Definition is_upper  (c : ascii) : bool :=
  let n := nat_of_ascii c in (65 <=? n) && (n <=? 90).
Definition is_digit  (c : ascii) : bool :=
  let n := nat_of_ascii c in (48 <=? n) && (n <=? 57).

(** The class [[a-zA-Z_-]] of header keys. *)
Definition is_key_char (c : ascii) : bool :=
  is_lower c || is_upper c || Ascii.eqb c "_" || Ascii.eqb c "-".

(** The class [[a-z0-9-]] of skill names. *)
Definition is_name_char (c : ascii) : bool :=
  is_lower c || is_digit c || Ascii.eqb c "-".

(** [s.lstrip()] *)
Fixpoint str_lstrip (s : string) : string :=
  match s with
  | "" => ""
  | String c s' => if is_space c then str_lstrip s' else s
  end.

(** [s.rstrip()] *)
Fixpoint str_rstrip (s : string) : string :=
  match s with
  | "" => ""
  | String c s' =>
      match str_rstrip s' with
      | "" => if is_space c then "" else String c ""
      | r => String c r
      end
  end.

(** [s.strip()] *)
Definition str_strip (s : string) : string := str_rstrip (str_lstrip s).

(** [s.split(sep)] for a one-character separator: never the empty list. *)
Fixpoint str_split (sep : ascii) (s : string) : list string :=
  match s with
  | "" => [""]
  | String c s' =>
      if Ascii.eqb c sep then "" :: str_split sep s'
      else match str_split sep s' with
           | [] => [String c ""]
           | w :: ws => String c w :: ws
           end
  end.

(** [s.startswith(p)] *)
Definition str_startswith (p s : string) : bool := String.prefix p s.

(** [s.endswith(p)] *)
Definition str_endswith (p s : string) : bool :=
  String.prefix (String.rev p) (String.rev s).

(** [sub in s] *)
Fixpoint str_contains (sub s : string) : bool :=
  String.prefix sub s ||
  match s with
  | "" => false
  | String _ s' => str_contains sub s'
  end.

(** [s] without its prefix [p], when it starts with [p]. *)
Fixpoint str_after (p s : string) : option string :=
  match p, s with
  | "", _ => Some s
  | String a p', String b s' =>
      if Ascii.eqb a b then str_after p' s' else None
  | String _ _, "" => None
  end.

(** The shortest prefix of [s] that is followed by [stop]: what a lazy
    group matching any character captures in front of the literal
    [stop]. Zero characters are tried first, then one more at a time. *)
Fixpoint lazy_until (stop s : string) : option string :=
  if String.prefix stop s then Some ""
  else match s with
       | "" => None
       | String c s' => String c <$> lazy_until stop s'
       end.

(** [s[1:-1]] *)
Definition str_slice_1_m1 (s : string) : string :=
  String.substring 1 (String.length s - 2) s.

(** [sep.join(parts)] *)
Definition str_join (sep : string) (parts : list string) : string :=
  String.concat sep parts.

(** [str(n)] and [f"{n}"] for a non-negative integer. *)
Definition str_of_nat (n : nat) : string :=
  DecimalString.NilEmpty.string_of_uint (Nat.to_uint n).

(** The longest prefix of characters in a class, and what follows it. *)
Fixpoint span (p : ascii → bool) (s : string) : string * string :=
  match s with
  | "" => ("", "")
  | String c s' =>
      if p c then let '(a, b) := span p s' in (String c a, b)
      else ("", s)
  end.

Definition to_upper (c : ascii) : ascii :=
  if is_lower c then ascii_of_nat (nat_of_ascii c - 32) else c.
Definition to_lower (c : ascii) : ascii :=
  if is_upper c then ascii_of_nat (nat_of_ascii c + 32) else c.

Fixpoint str_map (f : ascii → ascii) (s : string) : string :=
  match s with
  | "" => ""
  | String c s' => String (f c) (str_map f s')
  end.

(** The first character, if any. *)
Definition first_char (s : string) : option ascii :=
  match s with String c _ => Some c | "" => None end.

(** [s.capitalize()]. Case mapping is the ASCII one: a code point from
    128 up is left as it is. *)
Definition str_capitalize (s : string) : string :=
  match s with
  | "" => ""
  | String c s' => String (to_upper c) (str_map to_lower s')
  end.

(** ** Paths and the filesystem *)

Module Pathlib.

(** A resolved absolute path is the list of its components, the last one
    first: the root is [[]], [p.parent] is the tail, [p.name] the head.
    The model has no symbolic links and no working directory, so a
    function that starts with [Path(arg).resolve()] takes the resolved
    path as its argument. *)
Abbreviation Path := (list string).

(** [p.name] *)
Definition Path_name (p : Path) : string := hd "" p.

(** The components of a path written as a string: empty components and
    [.] are dropped by [pathlib]. *)
Definition components (s : string) : list string :=
  filter (λ c, c ≠ "" ∧ c ≠ ".") (str_split "/" s).

(** [p / s] for a [str] operand: a relative [s] is appended, an absolute
    one replaces [p]. Components are kept as they are written: [..] is
    not followed, and the root [//] that [pathlib] keeps apart for a
    string that starts with exactly two slashes is read as [/]. *)
Definition Path_div (p : Path) (s : string) : Path :=
  if str_startswith "/" s then rev (components s)
  else rev (components s) ++ p.

(** [str(p)] *)
Definition Path_str (p : Path) : string := "/" +:+ str_join "/" (rev p).

Inductive node : Type :=
  | Dir
  | File (content : string) (mode : option N).

Abbreviation filesystem := (gmap (list string) node).

Inductive os_error : Type :=
  | FileNotFoundError
  | FileExistsError
  | NotADirectoryError
  | IsADirectoryError.

Inductive outcome (A : Type) : Type :=
  | Ok (a : A)
  | Raise (e : os_error).
Global Arguments Ok {A} a.
Global Arguments Raise {A} e.

(** [os.stat]: the path is walked from the root, every proper ancestor
    has to be a directory. *)
Fixpoint stat (p : Path) (fs : filesystem) : outcome node :=
  match p with
  | [] => Ok Dir
  | _ :: parent =>
      match stat parent fs with
      | Ok Dir =>
          match fs !! p with
          | Some n => Ok n
          | None => Raise FileNotFoundError
          end
      | Ok (File _ _) => Raise NotADirectoryError
      | Raise e => Raise e
      end
  end.

(** [p.exists()] *)
Definition Path_exists (p : Path) (fs : filesystem) : bool :=
  match stat p fs with Ok _ => true | Raise _ => false end.

(** [p.is_dir()] *)
Definition Path_is_dir (p : Path) (fs : filesystem) : bool :=
  match stat p fs with Ok Dir => true | _ => false end.

(** [os.mkdir(p)] *)
Definition os_mkdir (p : Path) (fs : filesystem) : outcome filesystem :=
  match p with
  | [] => Raise FileExistsError
  | _ :: parent =>
      match stat parent fs with
      | Ok Dir =>
          match fs !! p with
          | Some _ => Raise FileExistsError
          | None => Ok (<[p := Dir]> fs)
          end
      | Ok (File _ _) => Raise NotADirectoryError
      | Raise e => Raise e
      end
  end.

(** [p.mkdir(parents=False, exist_ok=exist_ok)] *)
Definition mkdir_flat (exist_ok : bool) (p : Path) (fs : filesystem)
  : outcome filesystem :=
  match os_mkdir p fs with
  | Ok fs' => Ok fs'
  | Raise FileNotFoundError => Raise FileNotFoundError
  | Raise e =>
      if negb exist_ok || negb (Path_is_dir p fs) then Raise e else Ok fs
  end.

(** [p.mkdir(parents=True, exist_ok=exist_ok)]: on [FileNotFoundError]
    the parent is made with [parents=True, exist_ok=True], then the
    directory itself with [parents=False]. *)
Fixpoint mkdir_parents (exist_ok : bool) (p : Path) (fs : filesystem)
  : outcome filesystem :=
  match os_mkdir p fs with
  | Ok fs' => Ok fs'
  | Raise FileNotFoundError =>
      match p with
      | [] => Raise FileNotFoundError
      | _ :: parent =>
          match mkdir_parents true parent fs with
          | Ok fs1 => mkdir_flat exist_ok p fs1
          | Raise e => Raise e
          end
      end
  | Raise e =>
      if negb exist_ok || negb (Path_is_dir p fs) then Raise e else Ok fs
  end.

(** [p.mkdir(parents=..., exist_ok=...)] *)
Definition Path_mkdir (parents exist_ok : bool) (p : Path) (fs : filesystem)
  : outcome filesystem :=
  if parents then mkdir_parents exist_ok p fs else mkdir_flat exist_ok p fs.

(** [p.write_text(data)]: the file is created or truncated; an existing
    file keeps its mode, a new one has the default one ([None]). *)
Definition Path_write_text (p : Path) (data : string) (fs : filesystem)
  : outcome filesystem :=
  match p with
  | [] => Raise IsADirectoryError
  | _ :: parent =>
      match stat parent fs with
      | Ok Dir =>
          match fs !! p with
          | Some Dir => Raise IsADirectoryError
          | Some (File _ mode) => Ok (<[p := File data mode]> fs)
          | None => Ok (<[p := File data None]> fs)
          end
      | Ok (File _ _) => Raise NotADirectoryError
      | Raise e => Raise e
      end
  end.

(** What text mode does to the characters of a file that is read: a
    carriage return, with the line feed after it if there is one, is
    read as one line feed. *)
Fixpoint universal_newlines (s : string) : string :=
  match s with
  | "" => ""
  | String c s' =>
      let rest := universal_newlines s' in
      if Ascii.eqb c CR then
        match s' with
        | String d _ => if Ascii.eqb d LF then rest else String LF rest
        | "" => String LF rest
        end
      else String c rest
  end.

(** [p.read_text()]. A file holds the characters that were written to
    it; decoding errors are no part of the model. *)
Definition Path_read_text (p : Path) (fs : filesystem) : outcome string :=
  match stat p fs with
  | Ok (File content _) => Ok (universal_newlines content)
  | Ok Dir => Raise IsADirectoryError
  | Raise e => Raise e
  end.

(** [p.chmod(mode)]; the mode of a directory is not kept by the model. *)
Definition Path_chmod (p : Path) (mode : N) (fs : filesystem)
  : outcome filesystem :=
  match stat p fs with
  | Ok (File content _) => Ok (<[p := File content (Some mode)]> fs)
  | Ok Dir => Ok fs
  | Raise e => Raise e
  end.

End Pathlib.

Import Pathlib.

(** ** [quick_validate.py] *)

Module QuickValidate.

(** [ALLOWED_PROPERTIES] *)
Definition ALLOWED_PROPERTIES : gset string :=
  {[ "name"; "description"; "license"; "allowed-tools"; "metadata" ]}.

(** [re.match] of a stripped header line against the pattern
    [^(K+):\s*(R)$], where [K] is the class [[a-zA-Z_-]] and [R] is any
    run of characters other than the line feed; groups 1 and 2 are given.

    The key is the longest run of key characters (a shorter run is never
    followed by a colon). After the colon [\s*] takes every leading
    whitespace character and group 2 everything up to the first line feed;
    [$] then demands the end of the string or a final line feed. Giving
    back whitespace cannot help: the position [$] is tried at stays the
    same, or moves before a line feed that is not the last character. *)
Definition match_key_value (line : string) : option (string * string) :=
  let '(key, rest) := span is_key_char line in
  match key, rest with
  | String _ _, String ":" rest =>
      let '(value, tail) :=
        span (λ c, negb (Ascii.eqb c LF)) (str_lstrip rest) in
      if decide (tail = "" ∨ tail = nl) then Some (key, value) else None
  | _, _ => None
  end.

(** Removal of surrounding quotes, lines 33-36. *)
Definition unquote (value : string) : string :=
  if (str_startswith (String DQUOTE "") value
      && str_endswith (String DQUOTE "") value)
     || (str_startswith "'" value && str_endswith "'" value)
  then str_slice_1_m1 value
  else value.

(** One iteration of the loop of [parse_simple_yaml]: the binding the
    line stores, or [None] when the line is skipped. *)
Definition parse_line (line : string) : option (string * string) :=
  let line := str_strip line in
  if decide (line = "") then None
  else if str_startswith "#" line then None
  else
    match match_key_value line with
    | Some (key, value) => Some (key, unquote (str_strip value))
    | None => None
    end.

Definition store (result : gmap string string) (line : string)
  : gmap string string :=
  match parse_line line with
  | Some (key, value) => <[key := value]> result
  | None => result
  end.

Definition parse_lines (lines : list string) : gmap string string :=
  foldl store ∅ lines.

Definition parse_simple_yaml (text : string) : gmap string string :=
  parse_lines (str_split LF (str_strip text)).


(** [re.match] against ["^---\n(.*?)\n---"] with [re.DOTALL], giving
    group 1: the text starts with the marker and a line feed, and the
    lazy group stops in front of the first line feed followed by the
    marker. *)
Definition extract_frontmatter (content : string) : option string :=
  match str_after ("---" +:+ nl) content with
  | Some rest => lazy_until (nl +:+ "---") rest
  | None => None
  end.

(** [re.match] against ["^[a-z0-9-]+$"]: a non-empty run of name
    characters up to the end of the string or to a final line feed. *)
Definition match_name_shape (name : string) : bool :=
  let '(run, tail) := span is_name_char name in
  bool_decide (run ≠ "" ∧ (tail = "" ∨ tail = nl)).

(** [sorted(keys)] on a set of strings: code point order. *)
Definition sorted (keys : gset string) : list string :=
  merge_sort String.le (elements keys).

Definition msg_unexpected (unexpected_keys : gset string) : string :=
  "Unexpected key(s) in frontmatter: "
  +:+ str_join ", " (sorted unexpected_keys) +:+ ". "
  +:+ "Allowed: " +:+ str_join ", " (sorted ALLOWED_PROPERTIES).
Definition msg_name_shape (name : string) : string :=
  "Name '" +:+ name
  +:+ "' should be hyphen-case (lowercase letters, digits, and hyphens only)".
Definition msg_name_hyphens (name : string) : string :=
  "Name '" +:+ name
  +:+ "' cannot start/end with hyphen or contain consecutive hyphens".
Definition msg_name_long (name : string) : string :=
  "Name is too long (" +:+ str_of_nat (String.length name)
  +:+ " chars). Maximum is 64 characters.".
Definition msg_name_dir (name dirname : string) : string :=
  "Name '" +:+ name +:+ "' does not match directory name '"
  +:+ dirname +:+ "'".
Definition msg_description_long (description : string) : string :=
  "Description is too long (" +:+ str_of_nat (String.length description)
  +:+ " chars). Maximum is 1024 characters.".
Definition msg_lines (n : nat) : string :=
  "SKILL.md has " +:+ str_of_nat n +:+ " lines. Maximum recommended is 500.".
Definition msg_valid : string := "Skill is valid!".

(** Truth value of a [str]: [if name:]. *)
Definition str_truthy (s : string) : bool :=
  match s with "" => false | String _ _ => true end.

(** Lines 95-117: the block under [if name:], giving the message of
    the [return] that is taken, if any. *)
Definition name_checks (name dirname : string) : option string :=
  if str_truthy name then
    if negb (match_name_shape name) then Some (msg_name_shape name)
    else if str_startswith "-" name || str_endswith "-" name
            || str_contains "--" name then Some (msg_name_hyphens name)
    else if 64 <? String.length name then Some (msg_name_long name)
    else if negb (String.eqb name dirname) then
      Some (msg_name_dir name dirname)
    else None
  else None.

(** Lines 125-132: the block under [if description:]. *)
Definition description_checks (description : string) : option string :=
  if str_truthy description then
    if str_contains "<" description || str_contains ">" description then
      Some "Description cannot contain angle brackets (< or >)"
    else if 1024 <? String.length description then
      Some (msg_description_long description)
    else None
  else None.

(** Lines 57-139 of [validate_skill], as a function of [skill_path.name]
    and of the text read from SKILL.md.

    [parse_simple_yaml] raises nothing and returns a [dict] of [str]
    values, so the [except] clause and the three [isinstance] guards
    (lines 70-73, 91-92, 121-122) are never taken; they have no
    counterpart here. *)
Definition validate_content (dirname content : string) : bool * string :=
  if negb (str_startswith "---" content) then
    (false, "No YAML frontmatter found")
  else
  match extract_frontmatter content with
  | None => (false, "Invalid frontmatter format")
  | Some frontmatter_text =>
  let frontmatter := parse_simple_yaml frontmatter_text in
  let unexpected_keys := dom frontmatter ∖ ALLOWED_PROPERTIES in
  if decide (unexpected_keys ≠ ∅) then (false, msg_unexpected unexpected_keys)
  else if decide (frontmatter !! "name" = None) then
    (false, "Missing 'name' in frontmatter")
  else if decide (frontmatter !! "description" = None) then
    (false, "Missing 'description' in frontmatter")
  else
  let name := str_strip (default "" (frontmatter !! "name")) in
  match name_checks name dirname with
  | Some message => (false, message)
  | None =>
  let description := str_strip (default "" (frontmatter !! "description")) in
  match description_checks description with
  | Some message => (false, message)
  | None =>
  let lines := str_split LF content in
  if 500 <? length lines then (false, msg_lines (length lines))
  else (true, msg_valid)
  end end end.

(** [validate_skill(skill_path)], for the resolved [skill_path].
    [read_text] can raise (SKILL.md may be a directory); nothing in
    [validate_skill] catches that. *)
Definition validate_skill (skill_path : Path) (fs : filesystem)
  : outcome (bool * string) :=
  let skill_md := Path_div skill_path "SKILL.md" in
  if negb (Path_exists skill_md fs) then Ok (false, "SKILL.md not found")
  else
    match Path_read_text skill_md fs with
    | Ok content => Ok (validate_content (Path_name skill_path) content)
    | Raise e => Raise e
    end.

End QuickValidate.

Import QuickValidate.

(** ** [init_skill.py] *)

Module InitSkill.

Definition dq : string := String DQUOTE "".

(** A template given line by line; every line ends with a line feed. *)
Definition text (lines : list string) : string :=
  String.concat "" (map (λ l, l +:+ nl) lines).

(** The module constants. [str.format] is applied to the first three
    with the fields they name, which is how they are given here: as
    functions of the fields. *)
Definition SKILL_TEMPLATE (skill_name skill_title : string) : string :=
  text [
    "---";
    "name: " +:+ skill_name;
    "description: [TODO: Explain what this skill does and when to use it. Include specific triggers like file types, tasks, or scenarios.]";
    "---";
    "";
    "# " +:+ skill_title;
    "";
    "## Overview";
    "";
    "[TODO: 1-2 sentences explaining what this skill enables]";
    "";
    "## Workflow";
    "";
    "[TODO: Add the main workflow or instructions. Choose a structure that fits:";
    "";
    "**Workflow-Based** (sequential processes):";
    "## Workflow Decision Tree -> ## Step 1 -> ## Step 2...";
    "";
    "**Task-Based** (tool collections):";
    "## Quick Start -> ## Task 1 -> ## Task 2...";
    "";
    "**Reference/Guidelines** (standards):";
    "## Guidelines -> ## Specifications -> ## Usage...";
    "";
    "Delete this guidance section when done.]";
    "";
    "## Resources";
    "";
    "Example directories are included to demonstrate structure:";
    "";
    "- `scripts/`: Executable code (Python/Bash) for automation";
    "- `references/`: Documentation loaded into context as needed";
    "- `assets/`: Files used in output (templates, images, not loaded into context)";
    "";
    "Delete any unneeded directories."
  ].

Definition EXAMPLE_SCRIPT (skill_name : string) : string :=
  text [
    "#!/usr/bin/env python3";
    dq +:+ dq +:+ dq;
    "Example helper script for " +:+ skill_name;
    "";
    "Replace with actual implementation or delete if not needed.";
    dq +:+ dq +:+ dq;
    "";
    "def main():";
    "    print(" +:+ dq +:+ "Example script for " +:+ skill_name +:+ dq +:+ ")";
    "    # TODO: Add actual script logic";
    "";
    "if __name__ == " +:+ dq +:+ "__main__" +:+ dq +:+ ":";
    "    main()"
  ].

Definition EXAMPLE_REFERENCE (skill_title : string) : string :=
  text [
    "# Reference Documentation for " +:+ skill_title;
    "";
    "Replace with actual reference content or delete if not needed.";
    "";
    "Reference docs are ideal for:";
    "- Comprehensive API documentation";
    "- Detailed workflow guides";
    "- Complex multi-step processes";
    "- Information too lengthy for main SKILL.md"
  ].

Definition EXAMPLE_ASSET : string :=
  text [
    "# Example Asset File";
    "";
    "Replace with actual asset files (templates, images, fonts, etc.) or delete if not needed.";
    "";
    "Asset files are NOT loaded into context but used in the output Claude produces.";
    "";
    "Common asset types: .pptx, .docx, .png, .ttf, .csv, boilerplate directories"
  ].

(** [title_case_skill_name] *)
Definition title_case_skill_name (skill_name : string) : string :=
  str_join " " (map str_capitalize (str_split "-" skill_name)).

(** What [print] wrote: a line of text, or a line that ends with the
    text of a caught exception. *)
Inductive printed : Type :=
  | Line (s : string)
  | ErrorLine (s : string) (e : os_error).

Record world : Type := World {
  files : filesystem;
  stdout : list printed
}.

(** Computations on the world that may raise: the state reached at a
    [raise] is kept, nothing is rolled back. *)
Definition io (A : Type) : Type := world → world * outcome A.

#[global] Instance io_ret : MRet io := λ A a w, (w, Ok a).
#[global] Instance io_bind : MBind io := λ A B f m w,
  match m w with
  | (w', Ok a) => f a w'
  | (w', Raise e) => (w', Raise e)
  end.

Definition print (l : printed) : io unit :=
  λ w, (World (files w) (stdout w ++ [l]), Ok tt).

(** A filesystem query. *)
Definition ask {A} (q : filesystem → A) : io A :=
  λ w, (w, Ok (q (files w))).

(** A filesystem operation that may raise. *)
Definition perform (op : filesystem → outcome filesystem) : io unit :=
  λ w, match op (files w) with
       | Ok fs' => (World fs' (stdout w), Ok tt)
       | Raise e => (w, Raise e)
       end.

(** [try: body / except Exception as e: handler e] *)
Definition try_except {A} (body : io A) (handler : os_error → io A) : io A :=
  λ w, match body w with
       | (w', Ok a) => (w', Ok a)
       | (w', Raise e) => handler e w'
       end.

(** The mode [0o755]. *)
Definition mode_755 : N := 493.

(** [init_skill(skill_name, path)] for the resolved [path]. A block that
    ends in [return None] under [except] yields [None], and [Some tt]
    when control falls out of the [try]. *)
Definition init_skill (skill_name : string) (path : Path) : io (option Path) :=
  let skill_dir := Path_div path skill_name in
  there ← ask (Path_exists skill_dir);
  if there : bool then
    print (Line ("Error: Skill directory already exists: "
                 +:+ Path_str skill_dir));;
    mret None
  else
  made ← try_except
    (perform (Path_mkdir true false skill_dir);;
     print (Line ("Created skill directory: " +:+ Path_str skill_dir));;
     mret (Some tt))
    (λ e, print (ErrorLine "Error creating directory: " e);; mret None);
  if made is None then mret None else
  let skill_title := title_case_skill_name skill_name in
  let skill_content := SKILL_TEMPLATE skill_name skill_title in
  let skill_md_path := Path_div skill_dir "SKILL.md" in
  written ← try_except
    (perform (Path_write_text skill_md_path skill_content);;
     print (Line "Created SKILL.md");;
     mret (Some tt))
    (λ e, print (ErrorLine "Error creating SKILL.md: " e);; mret None);
  if written is None then mret None else
  resources ← try_except
    (let scripts_dir := Path_div skill_dir "scripts" in
     perform (Path_mkdir false true scripts_dir);;
     let example_script := Path_div scripts_dir "example.py" in
     perform (Path_write_text example_script (EXAMPLE_SCRIPT skill_name));;
     perform (Path_chmod example_script mode_755);;
     print (Line "Created scripts/example.py");;
     let references_dir := Path_div skill_dir "references" in
     perform (Path_mkdir false true references_dir);;
     let example_reference := Path_div references_dir "REFERENCE.md" in
     perform (Path_write_text example_reference
                (EXAMPLE_REFERENCE skill_title));;
     print (Line "Created references/REFERENCE.md");;
     let assets_dir := Path_div skill_dir "assets" in
     perform (Path_mkdir false true assets_dir);;
     let example_asset := Path_div assets_dir "example_asset.txt" in
     perform (Path_write_text example_asset EXAMPLE_ASSET);;
     print (Line "Created assets/example_asset.txt");;
     mret (Some tt))
    (λ e, print (ErrorLine "Error creating resource directories: " e);;
          mret None);
  if resources is None then mret None else
  print (Line (nl +:+ "Skill '" +:+ skill_name +:+ "' initialized at "
               +:+ Path_str skill_dir));;
  print (Line (nl +:+ "Next steps:"));;
  print (Line "1. Edit SKILL.md to complete the TODO items");;
  print (Line "2. Customize or delete example files in scripts/, references/, assets/");;
  print (Line "3. Run quick_validate.py to check the skill structure");;
  mret (Some skill_dir).

End InitSkill.

Import InitSkill.

(** ** Vocabulary of the specification *)

Module Spec.

(** Every character of [s] is in the class [p]. *)
Fixpoint str_all (p : ascii → bool) (s : string) : bool :=
  match s with
  | "" => true
  | String c s' => p c && str_all p s'
  end.

(** The lines of a text: its parts between line feeds. *)
Definition lines_of (content : string) : list string := str_split LF content.

(** Section 4.1, "a second occurrence of the marker on its own line is
    found after the first": some line after the first one is the marker. *)
Definition second_marker_line (content : string) : Prop :=
  "---" ∈ tail (lines_of content).

(** The text is the marker, a line feed, [h], a line feed, the marker
    again, and [t]. *)
Definition framed (content h t : string) : Prop :=
  content = "---" +:+ nl +:+ h +:+ nl +:+ "---" +:+ t.

(** *** Section 4.2 as a list of checks

    A check is given the base name of the directory and the text of the
    metadata document, if there is one; it answers with its message when
    it fails. Each check is stated on its own, without regard to the
    checks before it: the header of a text that has none is the empty
    mapping, and a field that is missing reads as the empty string. *)
Definition check : Type := string → option string → option string.

Definition on_document (c : string → string → option string) : check :=
  λ dirname doc,
    match doc with
    | Some content => c dirname content
    | None => None
    end.

Definition failing (condition : bool) (message : string) : option string :=
  if condition then Some message else None.

Definition header (content : string) : gmap string string :=
  match extract_frontmatter content with
  | Some h => parse_simple_yaml h
  | None => ∅
  end.

Definition field (key content : string) : string :=
  str_strip (default "" (header content !! key)).

Definition unexpected (content : string) : gset string :=
  dom (header content) ∖ ALLOWED_PROPERTIES.

Definition check_exists : check :=
  λ _ doc, failing (bool_decide (doc = None)) "SKILL.md not found".
Definition check_marker : check := on_document (λ _ content,
  failing (negb (str_startswith "---" content)) "No YAML frontmatter found").
Definition check_extractable : check := on_document (λ _ content,
  failing (bool_decide (extract_frontmatter content = None))
    "Invalid frontmatter format").
Definition check_mapping_type : check := λ _ _, None.
Definition check_keys : check := on_document (λ _ content,
  failing (bool_decide (unexpected content ≠ ∅))
    (msg_unexpected (unexpected content))).
Definition check_name_present : check := on_document (λ _ content,
  failing (bool_decide ("name" ∉ dom (header content)))
    "Missing 'name' in frontmatter").
Definition check_description_present : check := on_document (λ _ content,
  failing (bool_decide ("description" ∉ dom (header content)))
    "Missing 'description' in frontmatter").
Definition check_name_type : check := λ _ _, None.
Definition check_name_shape : check := on_document (λ _ content,
  let name := field "name" content in
  failing (bool_decide (name ≠ "") && negb (match_name_shape name))
    (msg_name_shape name)).
Definition check_name_hyphens : check := on_document (λ _ content,
  let name := field "name" content in
  failing (bool_decide (name ≠ "")
           && (str_startswith "-" name || str_endswith "-" name
               || str_contains "--" name))
    (msg_name_hyphens name)).
Definition check_name_length : check := on_document (λ _ content,
  let name := field "name" content in
  failing (bool_decide (name ≠ "") && (64 <? String.length name))
    (msg_name_long name)).
Definition check_name_directory : check := on_document (λ dirname content,
  let name := field "name" content in
  failing (bool_decide (name ≠ "") && bool_decide (name ≠ dirname))
    (msg_name_dir name dirname)).
Definition check_description_type : check := λ _ _, None.
Definition check_description_brackets : check := on_document (λ _ content,
  let description := field "description" content in
  failing (bool_decide (description ≠ "")
           && (str_contains "<" description || str_contains ">" description))
    "Description cannot contain angle brackets (< or >)").
Definition check_description_length : check := on_document (λ _ content,
  let description := field "description" content in
  failing (bool_decide (description ≠ "")
           && (1024 <? String.length description))
    (msg_description_long description)).
Definition check_line_count : check := on_document (λ _ content,
  failing (500 <? length (lines_of content))
    (msg_lines (length (lines_of content)))).

(** The checks that come before the line count, in the order of 4.2. *)
Definition earlier_checks : list check :=
  [ check_exists; check_marker; check_extractable; check_mapping_type;
    check_keys; check_name_present; check_description_present;
    check_name_type;
    check_name_shape; check_name_hyphens; check_name_length;
    check_name_directory;
    check_description_type;
    check_description_brackets; check_description_length ].

Definition checks : list check := earlier_checks ++ [check_line_count].

(** The message of the first check that fails. *)
Definition first_failure (cs : list check) (dirname : string)
    (doc : option string) : option string :=
  head (omap (λ c : check, c dirname doc) cs).

Definition verdict (failure : option string) : bool * string :=
  match failure with
  | Some message => (false, message)
  | None => (true, msg_valid)
  end.

(** What the directory holds where the metadata document is looked for:
    nothing, or a file that reads as some text. *)
Definition holds_document (skill_path : Path) (fs : filesystem)
    (doc : option string) : Prop :=
  match doc with
  | None => Path_exists ("SKILL.md" :: skill_path) fs = false
  | Some content =>
      ∃ written mode,
        stat ("SKILL.md" :: skill_path) fs = Ok (File written mode)
        ∧ universal_newlines written = content
  end.

(** A filesystem is a tree: the parent of every entry is a directory. *)
Definition fs_wf (fs : filesystem) : Prop :=
  ∀ p n, fs !! p = Some n → p ≠ [] ∧ stat (tail p) fs = Ok Dir.

End Spec.

Import Spec.

(** ** Sample inputs *)

Module Samples.

(** A header with nothing between the two marker lines. *)
Definition doc_empty_header : string := text ["---"; "---"].

(** A closing marker that is not alone on its line. *)
Definition doc_trailing_text : string :=
  text ["---"; "name: foo"; "description: x"] +:+ "---x".

(** A first line that is longer than the marker. *)
Definition doc_long_marker : string :=
  text ["----"; "name: foo"; "description: x"; "---"].

(** Several violations at once: an unknown key, a name that is no
    hyphen-case, angle brackets in the description. *)
Definition doc_several_failures : string :=
  text ["---"; "name: Bad--Name-"; "description: <x>"; "zeta: 1";
        "Alpha: 2"; "---"].

Definition header_several_failures : string :=
  "name: Bad--Name-" +:+ nl +:+ "description: <x>" +:+ nl +:+ "zeta: 1"
  +:+ nl +:+ "Alpha: 2".

(** Both fields present and empty. *)
Definition doc_empty_fields : string :=
  text ["---"; "name:"; "description:"; "---"].

Definition header_empty_fields : string := "name:" +:+ nl +:+ "description:".

(** [n] line feeds. *)
Fixpoint line_feeds (n : nat) : string :=
  match n with
  | 0 => ""
  | S n' => String LF (line_feeds n')
  end.

(** A valid document for the directory [foo] that splits into [4 + n]
    parts. *)
Definition doc_padded (n : nat) : string :=
  "---" +:+ nl +:+ "name: foo" +:+ nl +:+ "description: x" +:+ nl +:+ "---"
  +:+ line_feeds n.

(** A header that gives [a] twice. *)
Definition header_duplicate : string :=
  "a: 1" +:+ nl +:+ "b: 2" +:+ nl +:+ "a: 3".

(** A filesystem with the single directory [/skills]. *)
Definition fs_skills : filesystem := {[ ["skills"] := Dir ]}.

(** The directory [/foo] holding SKILL.md with the given text. *)
Definition fs_foo (content : string) : filesystem :=
  {[ ["foo"] := Dir; ["SKILL.md"; "foo"] := File content None ]}.

End Samples.

Import Samples.


(** ** The command lines *)

(** What a run of [main] ends in is an [outcome nat]: [Ok code] for
    [sys.exit(code)], [Raise e] for an exception nobody caught. The
    interpreter turns the latter into the status 1. *)
Definition exit_status (r : outcome nat) : nat :=
  match r with
  | Ok code => code
  | Raise _ => 1
  end.

(** A filesystem query that may raise. *)
Definition attempt {A} (q : filesystem → outcome A) : io A :=
  λ w, (w, q (files w)).

(** [main] of [quick_validate.py], lines 142-151, for [sys.argv = argv].
    [resolve] stands for [Path(arg).resolve()], which depends on the
    working directory. *)
Module QuickValidateMain.
Section main.

Variable resolve : string → Path.

Definition main (argv : list string) : io nat :=
  if negb (length argv =? 2) then
    print (Line "Usage: quick_validate.py <skill_directory>");;
    mret 1
  else
    let skill_path := default "" (argv !! 1) in
    result ← attempt (validate_skill (resolve skill_path));
    let '(valid, message) := result in
    print (Line message);;
    mret (if valid : bool then 0 else 1).

End main.
End QuickValidateMain.

(** [main] of [init_skill.py], lines 157-176. *)
Module InitSkillMain.
Section main.

Variable resolve : string → Path.

Definition main (argv : list string) : io nat :=
  if (length argv <? 4)
     || negb (String.eqb (default "" (argv !! 2)) "--path") then
    print (Line "Usage: init_skill.py <skill-name> --path <path>");;
    print (Line (nl +:+ "Skill name requirements:"));;
    print (Line "  - Lowercase letters, digits, and hyphens only");;
    print (Line "  - Max 64 characters");;
    print (Line "  - Must match directory name");;
    print (Line (nl +:+ "Examples:"));;
    print (Line "  init_skill.py my-new-skill --path skills/public");;
    print (Line "  init_skill.py custom-skill --path /custom/location");;
    mret 1
  else
    let skill_name := default "" (argv !! 1) in
    let path := default "" (argv !! 3) in
    print (Line ("Initializing skill: " +:+ skill_name));;
    print (Line ("Location: " +:+ path +:+ nl));;
    result ← init_skill skill_name (resolve path);
    mret (if result is Some _ then 0 else 1).

End main.
End InitSkillMain.

(** ** Further vocabulary *)

Module Terms.

(** A hyphen-case identifier of at most 64 characters: what section 3
    asks of a name, apart from its being the name of the directory. *)
Definition hyphen_case (name : string) : Prop :=
  name ≠ ""
  ∧ str_all is_name_char name = true
  ∧ str_startswith "-" name = false
  ∧ str_endswith "-" name = false
  ∧ str_contains "--" name = false
  ∧ String.length name ≤ 64.

(** A description that passes: no angle bracket, at most 1024 characters. *)
Definition plain_description (description : string) : Prop :=
  str_contains "<" description = false
  ∧ str_contains ">" description = false
  ∧ String.length description ≤ 1024.

(** No character of [s] is [c]. *)
Definition str_without (c : ascii) (s : string) : bool :=
  str_all (λ d, negb (Ascii.eqb d c)) s.

(** A code point below 128. On these [str_capitalize] is what Python
    does. *)
Definition is_ascii (c : ascii) : bool := nat_of_ascii c <? 128.

(** The character of the title that stands where [c] stands in the
    identifier, case aside. *)
Definition title_char (c : ascii) : ascii :=
  if Ascii.eqb c "-" then " "%char else to_lower c.

(** The binding that a line gives to [key], if it gives one. *)
Definition binding (key line : string) : option string :=
  match parse_line line with
  | Some (k, value) => if decide (k = key) then Some value else None
  | None => None
  end.



End Terms.

Import Terms.

(** ** Sample runs *)

Module Runs.


(** The directory [/skills], nothing printed yet. *)
Definition w_skills : world := World fs_skills [].

(** The world after [init_skill] has made [my-skill] in [/skills]. *)
Definition w_made : world := (init_skill "my-skill" ["skills"] w_skills).1.

(** [Path(arg).resolve()] when the working directory is the root. *)
Definition resolve_root (arg : string) : Path := Path_div [] arg.

(** The world after [init_skill.py my-skill --path /skills]. *)
Definition w_main : world :=
  (InitSkillMain.main resolve_root
     ["init_skill.py"; "my-skill"; "--path"; "/skills"] w_skills).1.

(** A header of words only. *)
Definition doc_no_colon : string := text ["---"; "just some words"; "---"].

End Runs.

Import Runs.

(** * Properties *)

(** ** Strings *)

Section strings.

Implicit Types (s t p h : string) (c : ascii).

Lemma str_app_cons c s t : String c s +:+ t = String c (s +:+ t).
Proof. reflexivity. Qed.

Lemma str_app_nil_l s : "" +:+ s = s.
Proof. reflexivity. Qed.

Lemma str_app_nil_r s : s +:+ "" = s.
Proof. induction s as [|c s IH]; [done|]. by rewrite str_app_cons, IH. Qed.

Lemma str_app_assoc s t u : (s +:+ t) +:+ u = s +:+ t +:+ u.
Proof. induction s as [|c s IH]; [done|]. by rewrite !str_app_cons, IH. Qed.

Lemma str_length_app s t :
  String.length (s +:+ t) = String.length s + String.length t.
Proof. induction s as [|c s IH]; [done|]. rewrite str_app_cons. simpl. lia. Qed.

Lemma str_app_same_length s1 s2 t1 t2 :
  s1 +:+ t1 = s2 +:+ t2 → String.length s1 = String.length s2 → s1 = s2.
Proof.
  revert s2. induction s1 as [|c s1 IH]; intros [|d s2] Heq Hlen;
    try done.
  rewrite !str_app_cons in Heq. injection Heq as -> Heq.
  f_equal. apply IH; [done|]. by injection Hlen.
Qed.

Lemma prefix_spec p s : String.prefix p s = true ↔ ∃ t, s = p +:+ t.
Proof.
  revert s. induction p as [|a p IH]; intros s.
  - split; [exists s; done|]. by destruct s.
  - destruct s as [|b s]; simpl.
    + split; [done|]. intros [t Ht]. by rewrite str_app_cons in Ht.
    + destruct (ascii_dec a b) as [->|Hne].
      * rewrite IH. split; intros [t Ht]; exists t.
        -- by rewrite str_app_cons, Ht.
        -- rewrite str_app_cons in Ht. by simplify_eq.
      * split; [done|]. intros [t Ht]. rewrite str_app_cons in Ht. by simplify_eq.
Qed.

Lemma str_after_spec p s t : str_after p s = Some t ↔ s = p +:+ t.
Proof.
  revert s. induction p as [|a p IH]; intros s; simpl.
  - rewrite str_app_nil_l. split; congruence.
  - destruct s as [|b s]; rewrite str_app_cons; [split; congruence|].
    destruct (Ascii.eqb_spec a b) as [->|Hne].
    + rewrite IH. split; congruence.
    + split; congruence.
Qed.

Lemma lazy_until_unfold stop s :
  lazy_until stop s =
    if String.prefix stop s then Some ""
    else match s with
         | "" => None
         | String c s' => String c <$> lazy_until stop s'
         end.
Proof. by destruct s. Qed.

(** A lazy group stops at the first place where the stop text follows. *)
Lemma lazy_until_Some_1 stop s h :
  lazy_until stop s = Some h →
  (∃ t, s = h +:+ stop +:+ t) ∧
  (∀ h' t', s = h' +:+ stop +:+ t' → String.length h ≤ String.length h').
Proof.
  revert h. induction s as [|c s IH]; intros h; rewrite lazy_until_unfold.
  - destruct (String.prefix stop "") eqn:Hp; [|done].
    intros [= <-]. apply prefix_spec in Hp as [t Ht].
    split; [by exists t|]. simpl. lia.
  - destruct (String.prefix stop (String c s)) eqn:Hp.
    + intros [= <-]. apply prefix_spec in Hp as [t Ht].
      split; [by exists t|]. simpl. lia.
    + destruct (lazy_until stop s) as [h0|] eqn:Hl; [|done].
      intros [= <-]. destruct (IH h0 eq_refl) as [[t Ht] Hmin]. split.
      * exists t. by rewrite str_app_cons, <-Ht.
      * intros [|c' h'] t' Hdec.
        -- rewrite str_app_nil_l in Hdec.
           assert (String.prefix stop (String c s) = true) as Hp'
             by (apply prefix_spec; eauto).
           congruence.
        -- rewrite str_app_cons in Hdec. simplify_eq. simpl.
           apply le_n_S. eauto.
Qed.

Lemma lazy_until_None stop s :
  lazy_until stop s = None ↔ ∀ h t, s ≠ h +:+ stop +:+ t.
Proof.
  induction s as [|c s IH]; rewrite lazy_until_unfold.
  - destruct (String.prefix stop "") eqn:Hp.
    + apply prefix_spec in Hp as [t Ht]. split; [done|].
      intros Hno. by destruct (Hno "" t).
    + split; [|done]. intros _ h t Hdec.
      destruct h; [|by rewrite str_app_cons in Hdec].
      rewrite str_app_nil_l in Hdec.
      assert (String.prefix stop "" = true) by (apply prefix_spec; eauto).
      congruence.
  - destruct (String.prefix stop (String c s)) eqn:Hp.
    + apply prefix_spec in Hp as [t Ht]. split; [done|].
      intros Hno. by destruct (Hno "" t).
    + destruct (lazy_until stop s) as [h0|] eqn:Hl; simpl.
      * split; [done|]. intros Hno.
        destruct (lazy_until_Some_1 _ _ _ Hl) as [[t Ht] _].
        destruct (Hno (String c h0) t). by rewrite str_app_cons, <-Ht.
      * split; [|done]. intros _ [|c' h] t Hdec.
        -- rewrite str_app_nil_l in Hdec.
           assert (String.prefix stop (String c s) = true)
             by (apply prefix_spec; eauto).
           congruence.
        -- rewrite str_app_cons in Hdec. simplify_eq.
           by eapply (proj1 IH eq_refl).
Qed.

Lemma lazy_until_Some stop s h :
  lazy_until stop s = Some h ↔
  (∃ t, s = h +:+ stop +:+ t) ∧
  (∀ h' t', s = h' +:+ stop +:+ t' → String.length h ≤ String.length h').
Proof.
  split; [apply lazy_until_Some_1|]. intros [[t Ht] Hmin].
  destruct (lazy_until stop s) as [h1|] eqn:Hl.
  - destruct (lazy_until_Some_1 _ _ _ Hl) as [[t1 Ht1] Hmin1].
    f_equal. apply (str_app_same_length _ _ (stop +:+ t1) (stop +:+ t)).
    + congruence.
    + apply Nat.le_antisymm; eauto.
  - by destruct (proj1 (lazy_until_None stop s) Hl h t).
Qed.

End strings.

(** ** Header extraction *)

Section extraction.

Implicit Types (content h t dirname : string).

Lemma framed_alt content h t :
  framed content h t ↔
  content = ("---" +:+ nl) +:+ h +:+ (nl +:+ "---") +:+ t.
Proof. reflexivity. Qed.

Lemma extract_frontmatter_Some content h :
  extract_frontmatter content = Some h ↔
  (∃ t, framed content h t) ∧
  (∀ h' t', framed content h' t' → String.length h ≤ String.length h').
Proof.
  setoid_rewrite framed_alt. unfold extract_frontmatter.
  destruct (str_after ("---" +:+ nl) content) as [rest|] eqn:Hafter.
  - apply str_after_spec in Hafter as ->. rewrite lazy_until_Some.
    split; intros [[t Ht] Hmin];
      (split; [exists t|intros h' t' Hdec; apply (Hmin h' t')]).
    + by rewrite Ht.
    + by apply (inj _) in Hdec.
    + by apply (inj _) in Ht.
    + by rewrite Hdec.
  - split; [done|]. intros [[t Ht] _].
    apply str_after_spec in Ht. congruence.
Qed.

Lemma extract_frontmatter_None content :
  extract_frontmatter content = None ↔ ∀ h t, ¬ framed content h t.
Proof.
  setoid_rewrite framed_alt. unfold extract_frontmatter.
  destruct (str_after ("---" +:+ nl) content) as [rest|] eqn:Hafter.
  - apply str_after_spec in Hafter as ->. rewrite lazy_until_None.
    split; intros Hno h t Hdec; apply (Hno h t).
    + by apply (inj _) in Hdec.
    + by rewrite Hdec.
  - split; [|done]. intros _ h t Ht.
    apply str_after_spec in Ht. congruence.
Qed.

Lemma extract_frontmatter_startswith content h :
  extract_frontmatter content = Some h → str_startswith "---" content = true.
Proof.
  intros [[t ->] _]%extract_frontmatter_Some. reflexivity.
Qed.

Lemma extract_frontmatter_first_line content h :
  extract_frontmatter content = Some h → lines_of content !! 0 = Some "---".
Proof.
  intros [[t ->] _]%extract_frontmatter_Some. unfold lines_of.
  change ("---" +:+ nl +:+ h +:+ nl +:+ "---" +:+ t)
    with (String "-" (String "-" (String "-" (String LF (h +:+ nl +:+ "---" +:+ t))))).
  done.
Qed.

End extraction.

(** ** The validator *)

Section validator.

Implicit Types (content dirname h name description message : string).

Lemma name_checks_first_char name dirname message :
  name_checks name dirname = Some message →
  first_char message = Some "N"%char.
Proof.
  unfold name_checks. repeat case_match; intros [= <-]; reflexivity.
Qed.

Lemma description_checks_first_char description message :
  description_checks description = Some message →
  first_char message = Some "D"%char.
Proof.
  unfold description_checks. repeat case_match; intros [= <-]; reflexivity.
Qed.

Lemma str_truthy_decide s : str_truthy s = bool_decide (s ≠ "").
Proof. by destruct s. Qed.

Lemma validate_content_invalid_format dirname content :
  str_startswith "---" content = true →
  validate_content dirname content = (false, "Invalid frontmatter format")
  ↔ extract_frontmatter content = None.
Proof.
  intros Hstart. unfold validate_content. rewrite Hstart. simpl.
  destruct (extract_frontmatter content) as [h|]; [|done].
  split; [|done]. intros Hv. exfalso. revert Hv.
  repeat case_match; intros [= Hm]; apply (f_equal first_char) in Hm;
    first [ done
          | by erewrite name_checks_first_char in Hm
          | by erewrite description_checks_first_char in Hm ].
Qed.

End validator.
Section first_failure.
Implicit Types (content dirname h name description message : string).

Lemma first_failure_cons c cs dirname doc :
  first_failure (c :: cs) dirname doc =
    match c dirname doc with
    | Some message => Some message
    | None => first_failure cs dirname doc
    end.
Proof. unfold first_failure. simpl. by destruct (c dirname doc). Qed.

Lemma first_failure_app cs1 cs2 dirname doc :
  first_failure (cs1 ++ cs2) dirname doc =
    match first_failure cs1 dirname doc with
    | Some message => Some message
    | None => first_failure cs2 dirname doc
    end.
Proof.
  induction cs1 as [|c cs1 IH]; [done|].
  rewrite <-app_comm_cons, !first_failure_cons, IH.
  by destruct (c dirname doc).
Qed.

Lemma failing_decide (P : Prop) {dec : Decision P} message :
  failing (bool_decide P) message = if decide P then Some message else None.
Proof. unfold bool_decide, decide, failing. by destruct dec. Qed.

Lemma eqb_decide s1 s2 : negb (String.eqb s1 s2) = bool_decide (s1 ≠ s2).
Proof.
  destruct (String.eqb_spec s1 s2) as [->|Hne]; simpl.
  - symmetry. apply bool_decide_eq_false_2. intros Hne. by apply Hne.
  - symmetry. by apply bool_decide_eq_true_2.
Qed.

(** The validator returns the message of the first failing check. *)
Lemma validate_content_first_failure dirname content :
  validate_content dirname content
  = verdict (first_failure checks dirname (Some content)).
Proof.
  unfold checks, earlier_checks. cbn [app].
  rewrite !first_failure_cons.
  unfold validate_content, check_exists, check_marker, check_extractable,
    check_mapping_type, check_name_type, check_description_type, on_document.
  rewrite bool_decide_false by done. cbn [failing].
  destruct (str_startswith "---" content); cbn [negb failing]; [|done].
  destruct (extract_frontmatter content) as [h|] eqn:He;
    [|by rewrite bool_decide_true].
  rewrite bool_decide_false by done. cbn [failing].
  unfold check_keys, check_name_present, check_description_present,
    check_name_shape, check_name_hyphens, check_name_length,
    check_name_directory, check_description_brackets,
    check_description_length, check_line_count,
    on_document, unexpected, field, header, lines_of.
  rewrite He. set (fm := parse_simple_yaml h).
  rewrite failing_decide.
  destruct (decide (dom fm ∖ ALLOWED_PROPERTIES ≠ ∅)); [done|].
  rewrite (bool_decide_ext _ _ (not_elem_of_dom fm "name")), failing_decide.
  destruct (decide (fm !! "name" = None)); [done|].
  rewrite (bool_decide_ext _ _ (not_elem_of_dom fm "description")),
    failing_decide.
  destruct (decide (fm !! "description" = None)); [done|].
  set (name := str_strip (default "" (fm !! "name"))).
  set (description := str_strip (default "" (fm !! "description"))).
  unfold name_checks, description_checks.
  rewrite !str_truthy_decide, (eqb_decide name dirname).
  destruct (bool_decide (name ≠ "")); cbn [andb failing].
  - destruct (match_name_shape name); cbn [andb negb failing]; [|done].
    destruct (_ || _); cbn [failing]; [done|].
    destruct (64 <? String.length name); cbn [failing]; [done|].
    destruct (bool_decide (name ≠ dirname)); cbn [andb negb failing]; [done|].
    destruct (bool_decide (description ≠ "")); cbn [andb failing].
    + destruct (_ || _); cbn [failing]; [done|].
      destruct (1024 <? _); cbn [failing]; [done|].
      by destruct (500 <? length (str_split LF content)).
    + by destruct (500 <? length (str_split LF content)).
  - destruct (bool_decide (description ≠ "")); cbn [andb failing].
    + destruct (_ || _); cbn [failing]; [done|].
      destruct (1024 <? _); cbn [failing]; [done|].
      by destruct (500 <? length (str_split LF content)).
    + by destruct (500 <? length (str_split LF content)).
Qed.

End first_failure.

(** ** Properties of the validator *)

Section validator_properties.

Implicit Types (content dirname h name description message : string).

Lemma sorted_spec (keys : gset string) :
  (∀ k, k ∈ sorted keys ↔ k ∈ keys)
  ∧ NoDup (sorted keys)
  ∧ StronglySorted String.le (sorted keys).
Proof.
  unfold sorted. split_and!.
  - intros k. rewrite merge_sort_Permutation. apply elem_of_elements.
  - rewrite merge_sort_Permutation. apply NoDup_elements.
  - apply (StronglySorted_merge_sort _).
Qed.

Lemma msg_unexpected_text (keys : gset string) :
  msg_unexpected keys =
    "Unexpected key(s) in frontmatter: " +:+ str_join ", " (sorted keys)
    +:+ ". Allowed: "
    +:+ str_join ", "
          ["allowed-tools"; "description"; "license"; "metadata"; "name"].
Proof.
  unfold msg_unexpected. do 2 f_equal; vm_compute; reflexivity.
Qed.

(** C2, as amended. For every text that starts with the marker, the
    validator answers "Invalid frontmatter format" exactly when
    extraction fails, and extraction fails exactly when the text is not
    of the form marker, line feed, [h], line feed, marker, [t]. When it
    is, the header extracted is the shortest such [h]; nothing is asked
    of what follows the second marker on its line. *)
Theorem extraction_fails_iff_not_framed dirname content :
  str_startswith "---" content = true →
  (validate_content dirname content = (false, "Invalid frontmatter format")
   ↔ extract_frontmatter content = None)
  ∧ (extract_frontmatter content = None ↔ ∀ h t, ¬ framed content h t)
  ∧ (∀ h, extract_frontmatter content = Some h ↔
          (∃ t, framed content h t) ∧
          (∀ h' t', framed content h' t' →
                    String.length h ≤ String.length h')).
Proof.
  intros Hstart. split_and!.
  - by apply validate_content_invalid_format.
  - apply extract_frontmatter_None.
  - apply extract_frontmatter_Some.
Qed.

(** C3. Whatever the directory holds, [validate_skill] returns one pair,
    and it is the verdict of the first check of section 4.2 that fails,
    in the order of that section. *)
Theorem validate_skill_first_failure (skill_path : Path) (fs : filesystem)
    (doc : option string) :
  holds_document skill_path fs doc →
  validate_skill skill_path fs
  = Ok (verdict (first_failure checks (Path_name skill_path) doc)).
Proof.
  unfold holds_document, validate_skill.
  change (Path_div skill_path "SKILL.md") with ("SKILL.md" :: skill_path).
  destruct doc as [content|].
  - intros (written & mode & Hstat & <-). unfold Path_exists, Path_read_text.
    rewrite Hstat. cbn [negb]. by rewrite validate_content_first_failure.
  - intros ->. reflexivity.
Qed.

(** C4. When extraction succeeds and the header has a key outside the
    allowed set, validation fails and the message lists the offending
    keys, each once, in increasing order, joined by a comma and a space,
    and then the allowed keys in the same manner. *)
Theorem unexpected_keys_reported dirname content h key value :
  extract_frontmatter content = Some h →
  parse_simple_yaml h !! key = Some value →
  key ∉ ALLOWED_PROPERTIES →
  ∃ offending : list string,
    validate_content dirname content
    = (false,
       "Unexpected key(s) in frontmatter: " +:+ str_join ", " offending
       +:+ ". Allowed: "
       +:+ str_join ", "
             ["allowed-tools"; "description"; "license"; "metadata"; "name"])
    ∧ (∀ k, k ∈ offending ↔
            k ∈ dom (parse_simple_yaml h) ∧ k ∉ ALLOWED_PROPERTIES)
    ∧ NoDup offending
    ∧ StronglySorted String.le offending.
Proof.
  intros He Hkey Hout.
  exists (sorted (dom (parse_simple_yaml h) ∖ ALLOWED_PROPERTIES)).
  destruct (sorted_spec (dom (parse_simple_yaml h) ∖ ALLOWED_PROPERTIES))
    as (Hmem & Hnodup & Hsorted).
  split_and!; [|intros k; rewrite Hmem; apply elem_of_difference|done..].
  unfold validate_content.
  rewrite (extract_frontmatter_startswith _ _ He), He. cbn [negb].
  rewrite decide_True; [by rewrite msg_unexpected_text|].
  assert (key ∈ dom (parse_simple_yaml h) ∖ ALLOWED_PROPERTIES) as Hin
    by (apply elem_of_difference; split; [by apply elem_of_dom|done]).
  intros Hempty. rewrite Hempty in Hin. by apply not_elem_of_empty in Hin.
Qed.

(** C5. A [name] that is empty once trimmed leaves only the description
    and line count checks to decide, whatever the directory is called;
    an empty [description] likewise leaves the name and line count
    checks; with both empty and at most 500 lines the document is valid. *)
Theorem empty_fields_skip_checks dirname content h name description :
  extract_frontmatter content = Some h →
  dom (parse_simple_yaml h) ⊆ ALLOWED_PROPERTIES →
  parse_simple_yaml h !! "name" = Some name →
  parse_simple_yaml h !! "description" = Some description →
  let line_count :=
    if 500 <? length (lines_of content)
    then (false, msg_lines (length (lines_of content)))
    else (true, msg_valid) in
  (str_strip name = "" →
   validate_content dirname content
   = match description_checks (str_strip description) with
     | Some message => (false, message)
     | None => line_count
     end)
  ∧ (str_strip description = "" →
     validate_content dirname content
     = match name_checks (str_strip name) dirname with
       | Some message => (false, message)
       | None => line_count
       end)
  ∧ (str_strip name = "" → str_strip description = "" →
     length (lines_of content) ≤ 500 →
     validate_content dirname content = (true, msg_valid)).
Proof.
  intros He Hdom Hname Hdesc line_count.
  assert (validate_content dirname content
          = match name_checks (str_strip name) dirname with
            | Some message => (false, message)
            | None =>
                match description_checks (str_strip description) with
                | Some message => (false, message)
                | None => line_count
                end
            end) as ->.
  { unfold validate_content.
    rewrite (extract_frontmatter_startswith _ _ He), He. cbn [negb].
    rewrite decide_False
      by (intros Hne; by apply Hne, subseteq_empty_difference_L).
    rewrite Hname, Hdesc. by repeat (rewrite decide_False by done). }
  split_and!.
  - by intros ->.
  - intros ->. by destruct (name_checks _ _).
  - intros -> -> Hlen. subst line_count. simpl.
    by rewrite (proj2 (Nat.ltb_ge _ _) Hlen).
Qed.

(** C7. For a document that passes every check before the line count:
    with at most 500 parts between line feeds it is valid, with 501 it is
    rejected and the message gives the count 501. *)
Theorem line_count_boundary dirname content :
  first_failure earlier_checks dirname (Some content) = None →
  (length (lines_of content) ≤ 500 →
   validate_content dirname content = (true, msg_valid))
  ∧ (length (lines_of content) = 501 →
     validate_content dirname content
     = (false, "SKILL.md has 501 lines. Maximum recommended is 500.")).
Proof.
  intros Hearlier. rewrite validate_content_first_failure.
  unfold checks. rewrite first_failure_app, Hearlier.
  rewrite first_failure_cons. unfold check_line_count, on_document.
  split.
  - intros Hlen. by rewrite (proj2 (Nat.ltb_ge _ _) Hlen).
  - intros ->. reflexivity.
Qed.

(** C10. A text that starts with the three marker characters while its
    first line is not the marker is rejected with "Invalid frontmatter
    format", not with "No YAML frontmatter found". *)
Theorem marker_prefix_without_marker_line dirname content :
  str_startswith "---" content = true →
  lines_of content !! 0 ≠ Some "---" →
  validate_content dirname content = (false, "Invalid frontmatter format").
Proof.
  intros Hstart Hfirst. apply validate_content_invalid_format; [done|].
  destruct (extract_frontmatter content) as [h|] eqn:He; [|done].
  by apply extract_frontmatter_first_line in He.
Qed.

End validator_properties.

(** ** The header parser *)

Section parser.

Implicit Types (s pad key line : string) (c q : ascii)
  (result : gmap string string).

Lemma is_key_char_not_space c : is_key_char c = true → is_space c = false.
Proof. destruct c as [[] [] [] [] [] [] [] []]; vm_compute; congruence. Qed.

Lemma span_stop (p : ascii → bool) s c t :
  str_all p s = true → p c = false →
  span p (s +:+ String c t) = (s, String c t).
Proof.
  intros Hall Hc. induction s as [|d s IH].
  - rewrite str_app_nil_l. simpl. by rewrite Hc.
  - simpl in Hall. apply andb_true_iff in Hall as [Hd Hall].
    rewrite str_app_cons. simpl. by rewrite Hd, IH.
Qed.

Lemma span_all (p : ascii → bool) s : str_all p s = true → span p s = (s, "").
Proof.
  induction s as [|d s IH]; [done|]. simpl.
  intros [Hd Hall]%andb_true_iff. by rewrite Hd, IH.
Qed.

Lemma str_lstrip_spaces pad s :
  str_all is_space pad = true → str_lstrip (pad +:+ s) = str_lstrip s.
Proof.
  induction pad as [|d pad IH]; [done|]. simpl.
  intros [Hd Hall]%andb_true_iff. rewrite ?str_app_cons. simpl. rewrite Hd. auto.
Qed.

Lemma str_rstrip_all_spaces pad :
  str_all is_space pad = true → str_rstrip pad = "".
Proof.
  induction pad as [|d pad IH]; [done|]. simpl.
  intros [Hd Hall]%andb_true_iff. by rewrite IH, Hd.
Qed.

Lemma str_rstrip_spaces s pad :
  str_all is_space pad = true → str_rstrip (s +:+ pad) = str_rstrip s.
Proof.
  intros Hall. induction s as [|d s IH].
  - rewrite str_app_nil_l. by apply str_rstrip_all_spaces.
  - rewrite str_app_cons. simpl. by rewrite IH.
Qed.

Lemma str_rstrip_ends_nonspace s q :
  is_space q = false → str_rstrip (s +:+ String q "") = s +:+ String q "".
Proof.
  intros Hq. induction s as [|d s IH].
  - rewrite str_app_nil_l. simpl. by rewrite Hq.
  - rewrite str_app_cons. simpl. rewrite IH. by destruct s.
Qed.

(** Trimming removes the padding around a text that begins and ends
    with characters that are no whitespace. *)
Lemma str_strip_padded pad1 c s q pad3 :
  str_all is_space pad1 = true → str_all is_space pad3 = true →
  is_space c = false → is_space q = false →
  str_strip (pad1 +:+ String c (s +:+ String q pad3))
  = String c (s +:+ String q "").
Proof.
  intros Hpad1 Hpad3 Hc Hq. unfold str_strip.
  rewrite str_lstrip_spaces by done. cbn [str_lstrip]. rewrite Hc.
  change (String c (s +:+ String q pad3))
    with (String c s +:+ String q "" +:+ pad3).
  rewrite <-str_app_assoc, str_rstrip_spaces by done.
  by rewrite str_rstrip_ends_nonspace.
Qed.

Lemma parse_line_lone_quote line pad1 key pad2 q pad3 :
  line = pad1 +:+ key +:+ ":" +:+ pad2 +:+ String q pad3 →
  key ≠ "" → str_all is_key_char key = true →
  str_all is_space pad1 = true → str_all is_space pad2 = true →
  str_all is_space pad3 = true →
  q = DQUOTE ∨ q = SQUOTE →
  parse_line line = Some (key, "").
Proof.
  intros -> Hkey Hchars Hpad1 Hpad2 Hpad3 Hq.
  destruct key as [|k key]; [done|]. clear Hkey.
  pose proof Hchars as Hall.
  simpl in Hchars. apply andb_true_iff in Hchars as [Hk Hchars].
  assert (is_space q = false) as Hqs by (by destruct Hq as [-> | ->]).
  unfold parse_line.
  replace (pad1 +:+ String k key +:+ ":" +:+ pad2 +:+ String q pad3)
    with (pad1 +:+ String k ((key +:+ ":" +:+ pad2) +:+ String q pad3))
    by (by rewrite !str_app_assoc).
  rewrite str_strip_padded by auto using is_key_char_not_space.
  rewrite decide_False by done.
  assert (str_startswith "#" (String k ((key +:+ ":" +:+ pad2) +:+ String q ""))
          = false) as ->.
  { unfold str_startswith. cbn [String.prefix].
    destruct (ascii_dec "#" k) as [<-|]; [|done].
    vm_compute in Hk. congruence. }
  unfold match_key_value.
  replace (String k ((key +:+ ":" +:+ pad2) +:+ String q ""))
    with (String k key +:+ String ":" (pad2 +:+ String q ""))
    by (by rewrite !str_app_assoc).
  rewrite span_stop by done.
  rewrite str_lstrip_spaces by done. cbn [str_lstrip]. rewrite Hqs.
  by destruct Hq as [-> | ->].
Qed.

(** C9. A header line [key: value] whose value is a lone quote character,
    double or single, stores the empty string under the key. *)
Theorem lone_quote_value_is_empty result line pad1 key pad2 q pad3 :
  line = pad1 +:+ key +:+ ":" +:+ pad2 +:+ String q pad3 →
  key ≠ "" → str_all is_key_char key = true →
  str_all is_space pad1 = true → str_all is_space pad2 = true →
  str_all is_space pad3 = true →
  q = DQUOTE ∨ q = SQUOTE →
  parse_line line = Some (key, "")
  ∧ store result line = <[key := ""]> result.
Proof.
  intros. assert (parse_line line = Some (key, "")) as Hline
    by (by eapply parse_line_lone_quote).
  split; [done|]. unfold store. by rewrite Hline.
Qed.

Lemma store_other result line key :
  (∀ value, parse_line line ≠ Some (key, value)) →
  store result line !! key = result !! key.
Proof.
  intros Hother. unfold store.
  destruct (parse_line line) as [[k v]|]; [|done].
  apply lookup_insert_ne. intros ->. by apply (Hother v).
Qed.

Lemma foldl_store_other result lines key :
  Forall (λ l, ∀ value, parse_line l ≠ Some (key, value)) lines →
  foldl store result lines !! key = result !! key.
Proof.
  intros Hlines. revert result.
  induction Hlines as [|l lines Hl _ IH]; intros result; [done|].
  simpl. by rewrite IH, store_other.
Qed.

(** The binding of a key is the value of the last line that gives one. *)
Lemma foldl_store_last result before line after key value :
  parse_line line = Some (key, value) →
  Forall (λ l, ∀ value', parse_line l ≠ Some (key, value')) after →
  foldl store result (before ++ line :: after) !! key = Some value.
Proof.
  intros Hline Hafter. rewrite foldl_app. simpl.
  rewrite foldl_store_other by done.
  unfold store at 1. rewrite Hline. apply lookup_insert_eq.
Qed.

(** C6. When two or more lines of the header give a value to the same
    key, the mapping returned binds the key to the value of the last of
    these lines. *)
Theorem duplicate_keys_last_wins text before first between last after
    key value1 value2 :
  str_split LF (str_strip text) = before ++ first :: between ++ last :: after →
  parse_line first = Some (key, value1) →
  parse_line last = Some (key, value2) →
  Forall (λ l, ∀ value, parse_line l ≠ Some (key, value)) after →
  parse_simple_yaml text !! key = Some value2.
Proof.
  intros Hlines _ Hlast Hafter. unfold parse_simple_yaml, parse_lines.
  rewrite Hlines.
  replace (before ++ first :: between ++ last :: after)
    with ((before ++ first :: between) ++ last :: after)
    by (by rewrite <-(assoc_L (++))).
  by apply foldl_store_last.
Qed.

End parser.

(** ** The filesystem *)

(** Two paths that differ in a component written out, or in length, are
    no suffix of one another. *)
Ltac not_suffix :=
  intro;
  repeat match goal with
  | H : _ :: _ `suffix_of` _ :: _ |- _ =>
      apply suffix_cons_inv in H; destruct H as [H|H]; [discriminate H|]
  end;
  match goal with
  | H : _ `suffix_of` _ |- _ => apply suffix_length in H; simpl in H; lia
  end.

Section filesystem.

Implicit Types (p q : Path) (fs : filesystem) (n : node).

Lemma stat_insert_ne p q n fs :
  ¬ q `suffix_of` p → stat p (<[q := n]> fs) = stat p fs.
Proof.
  induction p as [|x p IH]; intros Hq; [done|]. cbn [stat].
  rewrite IH by (intros Hs; by apply Hq, suffix_cons_r).
  rewrite lookup_insert_ne; [done|]. by intros ->.
Qed.

Lemma stat_insert_eq x p n fs :
  stat p fs = Ok Dir → stat (x :: p) (<[x :: p := n]> fs) = Ok n.
Proof.
  intros Hp. cbn [stat].
  by rewrite stat_insert_ne, Hp, lookup_insert_eq by apply suffix_cons_not.
Qed.

Lemma os_mkdir_Ok p fs fs' :
  os_mkdir p fs = Ok fs' →
  fs !! p = None ∧ fs' = <[p := Dir]> fs ∧ stat p fs' = Ok Dir.
Proof.
  destruct p as [|x p]; [done|]. unfold os_mkdir.
  destruct (stat p fs) as [[]|] eqn:Hp; try done.
  destruct (fs !! (x :: p)) eqn:Hx; [done|]. intros [= <-].
  by rewrite stat_insert_eq.
Qed.

Lemma mkdir_flat_Ok exist_ok p fs fs' :
  mkdir_flat exist_ok p fs = Ok fs' →
  stat p fs' = Ok Dir ∧ (fs' = fs ∨ fs' = <[p := Dir]> fs).
Proof.
  unfold mkdir_flat. destruct (os_mkdir p fs) as [fs1|e] eqn:Hmk.
  - intros [= <-]. apply os_mkdir_Ok in Hmk as (_ & -> & Hstat). auto.
  - destruct e; try done;
      (destruct (negb exist_ok || negb (Path_is_dir p fs)) eqn:Hno; [done|]);
      intros [= <-]; apply orb_false_iff in Hno as [_ Hdir];
      apply negb_false_iff in Hdir; unfold Path_is_dir in Hdir;
      destruct (stat p fs) as [[]|]; try done; auto.
Qed.

Lemma mkdir_parents_Ok exist_ok p fs fs' :
  mkdir_parents exist_ok p fs = Ok fs' → stat p fs' = Ok Dir.
Proof.
  destruct p as [|x p]; [done|]. cbn [mkdir_parents].
  destruct (os_mkdir (x :: p) fs) as [fs1|e] eqn:Hmk.
  - intros [= <-]. by apply os_mkdir_Ok in Hmk as (_ & _ & Hstat).
  - destruct e; try
      (destruct (negb exist_ok || negb (Path_is_dir (x :: p) fs)) eqn:Hno;
       [done|]; intros [= <-]; apply orb_false_iff in Hno as [_ Hdir];
       apply negb_false_iff in Hdir; unfold Path_is_dir in Hdir;
       by destruct (stat (x :: p) fs) as [[]|]).
    destruct (mkdir_parents true p fs) as [fs1|]; [|done].
    by intros [Hstat _]%mkdir_flat_Ok.
Qed.

Lemma write_text_Ok p data fs fs' :
  Path_write_text p data fs = Ok fs' →
  ∃ mode, fs' = <[p := File data mode]> fs
          ∧ stat p fs' = Ok (File data mode).
Proof.
  destruct p as [|x p]; [done|]. unfold Path_write_text.
  destruct (stat p fs) as [[]|] eqn:Hp; try done.
  destruct (fs !! (x :: p)) as [[|? mode]|] eqn:Hx; [done|..];
    intros [= <-]; eexists; by rewrite stat_insert_eq.
Qed.

Lemma chmod_Ok p mode fs fs' :
  Path_chmod p mode fs = Ok fs' → fs' = fs ∨ ∃ n, fs' = <[p := n]> fs.
Proof.
  unfold Path_chmod. destruct (stat p fs) as [[]|]; [| |done];
    intros [= <-]; eauto.
Qed.

(** An operation on [q] leaves every path alone that does not pass
    through [q]. *)
Lemma stat_frame p q fs fs' :
  fs' = fs ∨ (∃ n, fs' = <[q := n]> fs) →
  ¬ q `suffix_of` p → stat p fs' = stat p fs.
Proof. intros [->|[n ->]] Hq; [done|]. by apply stat_insert_ne. Qed.

Lemma mkdir_flat_frame exist_ok p q fs fs' :
  mkdir_flat exist_ok q fs = Ok fs' →
  ¬ q `suffix_of` p → stat p fs' = stat p fs.
Proof.
  intros [_ [->| ->]]%mkdir_flat_Ok Hq; [done|]. by apply stat_insert_ne.
Qed.

Lemma write_text_frame data p q fs fs' :
  Path_write_text q data fs = Ok fs' →
  ¬ q `suffix_of` p → stat p fs' = stat p fs.
Proof.
  intros (mode & -> & _)%write_text_Ok Hq. by apply stat_insert_ne.
Qed.

Lemma chmod_frame mode p q fs fs' :
  Path_chmod q mode fs = Ok fs' →
  ¬ q `suffix_of` p → stat p fs' = stat p fs.
Proof. intros Hch%chmod_Ok. by apply stat_frame. Qed.

End filesystem.

(** ** The initializer *)

Section initializer.

Implicit Types (w : world) (path d : Path).

(** C8. When the target directory exists, [init_skill] returns [None]
    and the filesystem is the one it started from: one line is printed
    and nothing else happens. *)
Theorem init_skill_existing_target skill_name path w :
  Path_exists (Path_div path skill_name) (files w) = true →
  init_skill skill_name path w
  = (World (files w)
       (stdout w ++ [Line ("Error: Skill directory already exists: "
                           +:+ Path_str (Path_div path skill_name))]),
     Ok None).
Proof.
  intros Hexists. unfold init_skill, mbind, io_bind, ask. cbn zeta.
  by rewrite Hexists.
Qed.

(** Every exception is caught inside [init_skill]: it returns. *)
Lemma init_skill_returns skill_name path w :
  ∃ w' r, init_skill skill_name path w = (w', Ok r).
Proof.
  unfold init_skill, try_except, perform, print, ask, mbind, io_bind,
    mret, io_ret.
  cbn zeta. cbn [files stdout].
  destruct (Path_exists _ (files w)); [eauto|].
  destruct (Path_mkdir true false _ (files w)) as [fs1|];
    cbn [files stdout]; [|eauto].
  destruct (Path_write_text _ _ fs1) as [fs2|]; cbn [files stdout]; [|eauto].
  destruct (Path_mkdir false true _ fs2) as [fs3|];
    cbn [files stdout]; [|eauto].
  destruct (Path_write_text _ _ fs3) as [fs4|]; cbn [files stdout]; [|eauto].
  destruct (Path_chmod _ _ fs4) as [fs5|]; cbn [files stdout]; [|eauto].
  destruct (Path_mkdir false true _ fs5) as [fs6|];
    cbn [files stdout]; [|eauto].
  destruct (Path_write_text _ _ fs6) as [fs7|]; cbn [files stdout]; [|eauto].
  destruct (Path_mkdir false true _ fs7) as [fs8|];
    cbn [files stdout]; [|eauto].
  destruct (Path_write_text _ _ fs8) as [fs9|]; cbn [files stdout]; eauto.
Qed.

Lemma template_is_valid :
  validate_content "my-new-skill"
    (universal_newlines
       (SKILL_TEMPLATE "my-new-skill" (title_case_skill_name "my-new-skill")))
  = (true, msg_valid).
Proof. vm_compute. reflexivity. Qed.

Lemma init_skill_validates path w w' d :
  init_skill "my-new-skill" path w = (w', Ok (Some d)) →
  d = "my-new-skill" :: path
  ∧ validate_skill d (files w') = Ok (true, msg_valid).
Proof.
  unfold init_skill. cbn zeta.
  repeat match goal with
  | |- context [Path_div ?p ?s] =>
      let r := eval cbv in (Path_div p s) in change (Path_div p s) with r
  end.
  unfold try_except, perform, print, ask, mbind, io_bind, mret, io_ret.
  cbn [files stdout].
  destruct (Path_exists _ (files w)); [done|].
  destruct (Path_mkdir true false _ (files w)) as [fs1|] eqn:Hmk;
    cbn [files stdout]; [|done].
  destruct (Path_write_text _ _ fs1) as [fs2|] eqn:Hmd;
    cbn [files stdout]; [|done].
  destruct (Path_mkdir false true _ fs2) as [fs3|] eqn:Hscripts;
    cbn [files stdout]; [|done].
  destruct (Path_write_text _ _ fs3) as [fs4|] eqn:Hexample;
    cbn [files stdout]; [|done].
  destruct (Path_chmod _ _ fs4) as [fs5|] eqn:Hchmod;
    cbn [files stdout]; [|done].
  destruct (Path_mkdir false true _ fs5) as [fs6|] eqn:Hreferences;
    cbn [files stdout]; [|done].
  destruct (Path_write_text _ _ fs6) as [fs7|] eqn:Hreference;
    cbn [files stdout]; [|done].
  destruct (Path_mkdir false true _ fs7) as [fs8|] eqn:Hassets;
    cbn [files stdout]; [|done].
  destruct (Path_write_text _ _ fs8) as [fs9|] eqn:Hasset;
    cbn [files stdout]; [|done].
  intros [= <- <-]. split; [done|]. cbn [files].
  apply write_text_Ok in Hmd as (mode & _ & Hstat).
  unfold validate_skill, Path_exists, Path_read_text.
  change (Path_div ("my-new-skill" :: path) "SKILL.md")
    with ("SKILL.md" :: "my-new-skill" :: path).
  cbn [Path_mkdir] in *.
  rewrite (write_text_frame _ _ _ _ _ Hasset) by not_suffix.
  rewrite (mkdir_flat_frame _ _ _ _ _ Hassets) by not_suffix.
  rewrite (write_text_frame _ _ _ _ _ Hreference) by not_suffix.
  rewrite (mkdir_flat_frame _ _ _ _ _ Hreferences) by not_suffix.
  rewrite (chmod_frame _ _ _ _ _ Hchmod) by not_suffix.
  rewrite (write_text_frame _ _ _ _ _ Hexample) by not_suffix.
  rewrite (mkdir_flat_frame _ _ _ _ _ Hscripts) by not_suffix.
  rewrite Hstat. cbn [negb Path_name hd].
  by rewrite template_is_valid.
Qed.

End initializer.

Section initializer_succeeds.

Implicit Types (p q : Path) (fs : filesystem) (w : world).

Lemma stat_cons_Dir x p fs :
  stat (x :: p) fs = Ok Dir → stat p fs = Ok Dir ∧ fs !! (x :: p) = Some Dir.
Proof.
  cbn [stat]. destruct (stat p fs) as [[]|]; try done.
  destruct (fs !! (x :: p)); [|done]. by intros [= ->].
Qed.

Lemma stat_cons_missing x p fs :
  stat (x :: p) fs = Raise FileNotFoundError →
  (stat p fs = Ok Dir ∧ fs !! (x :: p) = None)
  ∨ stat p fs = Raise FileNotFoundError.
Proof.
  cbn [stat]. destruct (stat p fs) as [[]|]; try done; [|auto].
  destruct (fs !! (x :: p)); [done|auto].
Qed.

(** In a tree nothing lies below what is no directory. *)
Lemma fs_wf_orphan fs x p :
  fs_wf fs → stat p fs ≠ Ok Dir → fs !! (x :: p) = None.
Proof.
  intros Hwf Hp. destruct (fs !! (x :: p)) as [n|] eqn:Hx; [|done].
  by destruct (Hwf _ _ Hx) as [_ ?].
Qed.

Lemma mkdir_flat_fresh exist_ok x p fs :
  stat p fs = Ok Dir → fs !! (x :: p) = None →
  mkdir_flat exist_ok (x :: p) fs = Ok (<[x :: p := Dir]> fs).
Proof. intros Hp Hx. unfold mkdir_flat, os_mkdir. by rewrite Hp, Hx. Qed.

Lemma write_text_fresh x p data fs :
  stat p fs = Ok Dir → fs !! (x :: p) = None →
  Path_write_text (x :: p) data fs = Ok (<[x :: p := File data None]> fs).
Proof. intros Hp Hx. unfold Path_write_text. by rewrite Hp, Hx. Qed.

Lemma chmod_file p content mode0 mode fs :
  stat p fs = Ok (File content mode0) →
  Path_chmod p mode fs = Ok (<[p := File content (Some mode)]> fs).
Proof. intros Hp. unfold Path_chmod. by rewrite Hp. Qed.

(** [mkdir] with [parents=True] writes on the way to [p] only. *)
Lemma mkdir_parents_agree exist_ok p fs fs' q :
  mkdir_parents exist_ok p fs = Ok fs' →
  ¬ q `suffix_of` p → fs' !! q = fs !! q.
Proof.
  revert exist_ok fs fs'.
  induction p as [|x p IH]; intros exist_ok fs fs' Hmk Hq.
  - cbn in Hmk. destruct (negb exist_ok || _); by simplify_eq.
  - cbn [mkdir_parents] in Hmk.
    destruct (os_mkdir (x :: p) fs) as [fs1|e] eqn:Hos.
    + simplify_eq. apply os_mkdir_Ok in Hos as (_ & -> & _).
      apply lookup_insert_ne. intros <-. by apply Hq.
    + destruct e; try (destruct (negb exist_ok || _); by simplify_eq).
      destruct (mkdir_parents true p fs) as [fs1|] eqn:Hrec; [|done].
      apply mkdir_flat_Ok in Hmk as [_ [->| ->]].
      * apply (IH _ _ _ Hrec). intros Hs. by apply Hq, suffix_cons_r.
      * rewrite lookup_insert_ne by (intros <-; by apply Hq).
        apply (IH _ _ _ Hrec). intros Hs. by apply Hq, suffix_cons_r.
Qed.

(** In a tree, [mkdir] with [parents=True] succeeds where nothing is yet,
    and also on a directory when [exist_ok] is set. *)
Lemma mkdir_parents_total exist_ok p fs :
  fs_wf fs →
  stat p fs = Raise FileNotFoundError
  ∨ (exist_ok = true ∧ stat p fs = Ok Dir) →
  ∃ fs', mkdir_parents exist_ok p fs = Ok fs'.
Proof.
  intros Hwf. revert exist_ok.
  induction p as [|x p IH]; intros exist_ok [Hmiss|[-> Hdir]]; try done.
  - by exists fs.
  - cbn [mkdir_parents].
    apply stat_cons_missing in Hmiss as [[Hp Hx]|Hp].
    + unfold os_mkdir. rewrite Hp, Hx. eauto.
    + assert (os_mkdir (x :: p) fs = Raise FileNotFoundError) as ->
        by (unfold os_mkdir; by rewrite Hp).
      destruct (IH true) as [fs1 Hrec]; [auto|]. rewrite Hrec.
      rewrite (mkdir_flat_fresh _ x p fs1); [eauto|..].
      * by apply mkdir_parents_Ok in Hrec.
      * rewrite (mkdir_parents_agree _ _ _ _ _ Hrec)
          by apply suffix_cons_not.
        apply fs_wf_orphan; [done|]. by rewrite Hp.
  - apply stat_cons_Dir in Hdir as [Hp Hx]. cbn [mkdir_parents].
    unfold os_mkdir, Path_is_dir. cbn [stat]. rewrite Hp, Hx. eauto.
Qed.

Lemma init_skill_succeeds path w :
  fs_wf (files w) →
  stat ("my-new-skill" :: path) (files w) = Raise FileNotFoundError →
  ∃ w', init_skill "my-new-skill" path w
        = (w', Ok (Some ("my-new-skill" :: path))).
Proof.
  intros Hwf Hmiss. set (t := "my-new-skill" :: path) in *.
  destruct (mkdir_parents_total false t (files w)) as [fs1 Hmk]; [done|auto|].
  pose proof (mkdir_parents_Ok _ _ _ _ Hmk) as Ht1.
  assert (∀ x, fs1 !! (x :: t) = None) as Hone.
  { intros x. rewrite (mkdir_parents_agree _ _ _ _ _ Hmk)
      by apply suffix_cons_not.
    apply fs_wf_orphan; [done|]. by rewrite Hmiss. }
  assert (∀ x y, fs1 !! (y :: x :: t) = None) as Htwo.
  { intros x y. rewrite (mkdir_parents_agree _ _ _ _ _ Hmk) by not_suffix.
    apply fs_wf_orphan; [done|]. cbn [stat]. by rewrite Hmiss. }
  unfold init_skill. cbn zeta.
  repeat match goal with
  | |- context [Path_div ?p ?s] =>
      let r := eval cbv in (Path_div p s) in change (Path_div p s) with r
  end.
  fold t.
  unfold try_except, perform, print, ask, mbind, io_bind, mret, io_ret.
  cbn [files stdout]. unfold Path_exists. rewrite Hmiss.
  cbn [Path_mkdir]. rewrite Hmk. cbn [files stdout].
  rewrite (write_text_fresh "SKILL.md" t) by done. cbn [files stdout].
  set (fs2 := <[ "SKILL.md" :: t := _ ]> fs1).
  assert (stat t fs2 = Ok Dir) as Ht2
    by (subst fs2; by rewrite stat_insert_ne by not_suffix).
  rewrite (mkdir_flat_fresh _ "scripts" t)
    by (subst fs2; by rewrite ?lookup_insert_ne by (by intros [=])).
  cbn [files stdout]. set (fs3 := <[ "scripts" :: t := _ ]> fs2).
  assert (stat t fs3 = Ok Dir) as Ht3
    by (subst fs3; by rewrite stat_insert_ne by not_suffix).
  rewrite (write_text_fresh "example.py" ("scripts" :: t));
    [|subst fs3; by apply stat_insert_eq
     |subst fs3 fs2; by rewrite ?lookup_insert_ne by (by intros [=])].
  cbn [files stdout]. set (fs4 := <[ "example.py" :: _ := _ ]> fs3).
  rewrite (chmod_file _ (EXAMPLE_SCRIPT "my-new-skill") None);
    [|subst fs4 fs3; by do 2 (apply stat_insert_eq)].
  cbn [files stdout]. set (fs5 := <[ "example.py" :: _ := _ ]> fs4).
  assert (stat t fs5 = Ok Dir) as Ht5
    by (subst fs5 fs4; by rewrite !stat_insert_ne by not_suffix).
  rewrite (mkdir_flat_fresh _ "references" t);
    [|done
     |subst fs5 fs4 fs3 fs2; by rewrite ?lookup_insert_ne by (by intros [=])].
  cbn [files stdout]. set (fs6 := <[ "references" :: t := _ ]> fs5).
  assert (stat t fs6 = Ok Dir) as Ht6
    by (subst fs6; by rewrite stat_insert_ne by not_suffix).
  rewrite (write_text_fresh "REFERENCE.md" ("references" :: t));
    [|subst fs6; by apply stat_insert_eq
     |subst fs6 fs5 fs4 fs3 fs2;
      by rewrite ?lookup_insert_ne by (by intros [=])].
  cbn [files stdout]. set (fs7 := <[ "REFERENCE.md" :: _ := _ ]> fs6).
  assert (stat t fs7 = Ok Dir) as Ht7
    by (subst fs7; by rewrite stat_insert_ne by not_suffix).
  rewrite (mkdir_flat_fresh _ "assets" t);
    [|done
     |subst fs7 fs6 fs5 fs4 fs3 fs2;
      by rewrite ?lookup_insert_ne by (by intros [=])].
  cbn [files stdout]. set (fs8 := <[ "assets" :: t := _ ]> fs7).
  rewrite (write_text_fresh "example_asset.txt" ("assets" :: t));
    [|subst fs8; by apply stat_insert_eq
     |subst fs8 fs7 fs6 fs5 fs4 fs3 fs2;
      by rewrite ?lookup_insert_ne by (by intros [=])].
  cbn [files stdout]. eauto.
Qed.

End initializer_succeeds.

(** ** Round trip *)

Section round_trip.

(** C1. Initializing [my-new-skill] where the target does not exist and
    then validating the directory returned succeeds: whenever
    [init_skill] returns a directory, it is the target and
    [validate_skill] accepts it; and in a tree where no file is in the way
    of the destination, [init_skill] does return it. *)
Theorem init_then_validate (path : Path) (w : world) :
  Path_exists (Path_div path "my-new-skill") (files w) = false →
  (∀ w' d,
     init_skill "my-new-skill" path w = (w', Ok (Some d)) →
     d = Path_div path "my-new-skill"
     ∧ validate_skill d (files w') = Ok (true, "Skill is valid!"))
  ∧ (fs_wf (files w) →
     stat path (files w) = Ok Dir
     ∨ stat path (files w) = Raise FileNotFoundError →
     ∃ w', init_skill "my-new-skill" path w
           = (w', Ok (Some (Path_div path "my-new-skill")))).
Proof.
  change (Path_div path "my-new-skill") with ("my-new-skill" :: path).
  intros Hnew. split.
  - intros w' d. apply init_skill_validates.
  - intros Hwf Hpath. apply init_skill_succeeds; [done|].
    unfold Path_exists in Hnew. cbn [stat] in *.
    destruct Hpath as [Hpath|Hpath]; rewrite Hpath in *; [|done].
    by destruct (files w !! _).
Qed.

End round_trip.

(** ** The scenarios of section 8, and the properties at sample inputs *)

Section samples.

(** Directory [foo], a document that names [bar]. *)
Example scenario_name_mismatch :
  validate_skill ["foo"]
    (fs_foo (text ["---"; "name: bar"; "description: x"; "---"]))
  = Ok (false, "Name 'bar' does not match directory name 'foo'").
Proof. vm_compute. reflexivity. Qed.

(** A document with no leading marker. *)
Example scenario_no_frontmatter :
  validate_skill ["foo"] (fs_foo (text ["# Foo"; "---"]))
  = Ok (false, "No YAML frontmatter found").
Proof. vm_compute. reflexivity. Qed.

(** A description with angle brackets. *)
Example scenario_angle_brackets :
  validate_skill ["foo"]
    (fs_foo (text ["---"; "name: foo"; "description: run <script>"; "---"]))
  = Ok (false, "Description cannot contain angle brackets (< or >)").
Proof. vm_compute. reflexivity. Qed.

(** A directory without SKILL.md, and one where SKILL.md is a directory:
    the latter makes [read_text] raise. *)
Example scenario_not_found :
  validate_skill ["foo"] fs_skills = Ok (false, "SKILL.md not found").
Proof. vm_compute. reflexivity. Qed.

Example scenario_directory_raises :
  validate_skill ["foo"] {[ ["foo"] := Dir; ["SKILL.md"; "foo"] := Dir ]}
  = Raise IsADirectoryError.
Proof. vm_compute. reflexivity. Qed.

(** Carriage returns are read as line feeds. *)
Example scenario_crlf :
  validate_skill ["foo"]
    (fs_foo ("---" +:+ String CR nl +:+ "name: foo" +:+ String CR nl
             +:+ "description: x" +:+ String CR nl +:+ "---" +:+ String CR nl))
  = Ok (true, "Skill is valid!").
Proof. vm_compute. reflexivity. Qed.

(** The quotes around a value are removed once. *)
Example scenario_quotes :
  parse_simple_yaml
    ("name: 'foo'" +:+ nl +:+ "# a comment" +:+ nl +:+ "no colon here" +:+ nl
     +:+ "description: " +:+ dq +:+ "'x'" +:+ dq)
  = {[ "name" := "foo"; "description" := "'x'" ]}.
Proof. vm_compute. reflexivity. Qed.

Lemma fs_wf_skills : fs_wf fs_skills.
Proof.
  intros p n Hp. unfold fs_skills in Hp.
  apply lookup_singleton_Some in Hp as [<- <-]. by split.
Qed.

Lemma init_then_validate_witness :
  Path_exists (Path_div ["public"; "skills"] "my-new-skill")
    (files (World fs_skills [])) = false
  ∧ ∃ w', init_skill "my-new-skill" ["public"; "skills"] (World fs_skills [])
          = (w', Ok (Some ["my-new-skill"; "public"; "skills"]))
          ∧ validate_skill ["my-new-skill"; "public"; "skills"] (files w')
            = Ok (true, "Skill is valid!").
Proof.
  split; [reflexivity|].
  destruct (init_then_validate ["public"; "skills"] (World fs_skills [])
              eq_refl) as [Hvalid Hruns].
  destruct Hruns as [w' Hw'].
  - exact fs_wf_skills.
  - right. reflexivity.
  - exists w'. split; [exact Hw'|]. by destruct (Hvalid _ _ Hw').
Defined.

(** C2 as it is worded fails in both directions. A second marker line
    right after the first is not enough for extraction to succeed, and
    extraction succeeds on a closing marker that has text after it on
    its line, where no second marker line is found. *)
Lemma second_marker_line_counterexample :
  (str_startswith "---" doc_empty_header = true
   ∧ second_marker_line doc_empty_header
   ∧ extract_frontmatter doc_empty_header = None
   ∧ validate_content "foo" doc_empty_header
     = (false, "Invalid frontmatter format"))
  ∧ (str_startswith "---" doc_trailing_text = true
     ∧ ¬ second_marker_line doc_trailing_text
     ∧ extract_frontmatter doc_trailing_text
       = Some ("name: foo" +:+ nl +:+ "description: x")
     ∧ validate_content "foo" doc_trailing_text = (true, "Skill is valid!")).
Proof.
  split; split_and!; try (vm_compute; reflexivity).
  - apply (bool_decide_unpack _). vm_compute. exact I.
  - apply (bool_decide_unpack _). vm_compute. exact I.
Qed.

Lemma extraction_fails_iff_not_framed_witness :
  str_startswith "---" doc_empty_header = true
  ∧ (validate_content "foo" doc_empty_header
     = (false, "Invalid frontmatter format"))
  ∧ (∀ h t, ¬ framed doc_empty_header h t)
  ∧ (∃ t, framed doc_trailing_text
            ("name: foo" +:+ nl +:+ "description: x") t).
Proof.
  destruct (extraction_fails_iff_not_framed "foo" doc_empty_header eq_refl)
    as (Hinvalid & Hnone & _).
  destruct (extraction_fails_iff_not_framed "foo" doc_trailing_text eq_refl)
    as (_ & _ & Hsome).
  split_and!.
  - reflexivity.
  - apply Hinvalid. vm_compute. reflexivity.
  - apply Hnone. vm_compute. reflexivity.
  - apply Hsome. vm_compute. reflexivity.
Defined.

Lemma validate_skill_first_failure_witness :
  holds_document ["foo"] (fs_foo doc_several_failures)
    (Some doc_several_failures)
  ∧ validate_skill ["foo"] (fs_foo doc_several_failures)
    = Ok (false,
          "Unexpected key(s) in frontmatter: Alpha, zeta. Allowed: allowed-tools, description, license, metadata, name").
Proof.
  assert (holds_document ["foo"] (fs_foo doc_several_failures)
            (Some doc_several_failures)) as Hdoc
    by (exists doc_several_failures, None; split; vm_compute; reflexivity).
  split; [exact Hdoc|].
  rewrite (validate_skill_first_failure _ _ _ Hdoc).
  vm_compute. reflexivity.
Defined.

Lemma unexpected_keys_reported_witness :
  extract_frontmatter doc_several_failures = Some header_several_failures
  ∧ parse_simple_yaml header_several_failures !! "zeta" = Some "1"
  ∧ ("zeta" ∉ ALLOWED_PROPERTIES)
  ∧ (∃ offending,
      validate_content "foo" doc_several_failures
      = (false,
         "Unexpected key(s) in frontmatter: " +:+ str_join ", " offending
         +:+ ". Allowed: "
         +:+ str_join ", "
               ["allowed-tools"; "description"; "license"; "metadata"; "name"])
      ∧ (∀ k, k ∈ offending ↔
              k ∈ dom (parse_simple_yaml header_several_failures)
              ∧ k ∉ ALLOWED_PROPERTIES)
      ∧ NoDup offending
      ∧ StronglySorted String.le offending).
Proof.
  assert ("zeta" ∉ ALLOWED_PROPERTIES) as Hout
    by (apply (bool_decide_unpack _); vm_compute; exact I).
  split_and!; [vm_compute; reflexivity..|exact Hout|].
  apply (unexpected_keys_reported "foo" doc_several_failures
           header_several_failures "zeta" "1");
    [vm_compute; reflexivity..|exact Hout].
Defined.

Lemma empty_fields_skip_checks_witness :
  extract_frontmatter doc_empty_fields = Some header_empty_fields
  ∧ dom (parse_simple_yaml header_empty_fields) ⊆ ALLOWED_PROPERTIES
  ∧ parse_simple_yaml header_empty_fields !! "name" = Some ""
  ∧ parse_simple_yaml header_empty_fields !! "description" = Some ""
  ∧ validate_content "foo" doc_empty_fields = (true, "Skill is valid!").
Proof.
  assert (dom (parse_simple_yaml header_empty_fields) ⊆ ALLOWED_PROPERTIES)
    as Hdom by (apply (bool_decide_unpack _); vm_compute; exact I).
  split_and!; [vm_compute; reflexivity|exact Hdom|vm_compute; reflexivity..|].
  destruct (empty_fields_skip_checks "foo" doc_empty_fields
              header_empty_fields "" "") as (_ & _ & Hboth);
    [vm_compute; reflexivity|exact Hdom|vm_compute; reflexivity..|].
  apply Hboth; [reflexivity..|]. vm_compute. lia.
Defined.

Lemma duplicate_keys_last_wins_witness :
  str_split LF (str_strip header_duplicate)
  = [] ++ "a: 1" :: ["b: 2"] ++ "a: 3" :: []
  ∧ parse_line "a: 1" = Some ("a", "1")
  ∧ parse_line "a: 3" = Some ("a", "3")
  ∧ parse_simple_yaml header_duplicate !! "a" = Some "3".
Proof.
  split_and!; [vm_compute; reflexivity..|].
  apply (duplicate_keys_last_wins header_duplicate
           [] "a: 1" ["b: 2"] "a: 3" [] "a" "1" "3");
    [vm_compute; reflexivity..|constructor].
Defined.

Lemma line_count_boundary_witness :
  first_failure earlier_checks "foo" (Some (doc_padded 496)) = None
  ∧ first_failure earlier_checks "foo" (Some (doc_padded 497)) = None
  ∧ length (lines_of (doc_padded 496)) = 500
  ∧ validate_content "foo" (doc_padded 496) = (true, "Skill is valid!")
  ∧ length (lines_of (doc_padded 497)) = 501
  ∧ validate_content "foo" (doc_padded 497)
    = (false, "SKILL.md has 501 lines. Maximum recommended is 500.").
Proof.
  assert (first_failure earlier_checks "foo" (Some (doc_padded 496)) = None)
    as H500 by (vm_compute; reflexivity).
  assert (first_failure earlier_checks "foo" (Some (doc_padded 497)) = None)
    as H501 by (vm_compute; reflexivity).
  assert (length (lines_of (doc_padded 496)) = 500) as Hlen500
    by (vm_compute; reflexivity).
  assert (length (lines_of (doc_padded 497)) = 501) as Hlen501
    by (vm_compute; reflexivity).
  destruct (line_count_boundary "foo" (doc_padded 496) H500) as [Hpass _].
  destruct (line_count_boundary "foo" (doc_padded 497) H501) as [_ Hfail].
  split_and!.
  - exact H500.
  - exact H501.
  - exact Hlen500.
  - apply Hpass. apply Nat.eq_le_incl. exact Hlen500.
  - exact Hlen501.
  - apply Hfail. exact Hlen501.
Defined.

Lemma init_skill_existing_target_witness :
  Path_exists (Path_div [] "skills") (files (World fs_skills [])) = true
  ∧ init_skill "skills" [] (World fs_skills [])
    = (World fs_skills
         [Line "Error: Skill directory already exists: /skills"],
       Ok None).
Proof.
  split; [reflexivity|].
  by rewrite (init_skill_existing_target "skills" [] (World fs_skills [])).
Defined.

Lemma lone_quote_value_is_empty_witness :
  parse_line ("name: " +:+ dq) = Some ("name", "")
  ∧ store ∅ ("name: " +:+ dq) = <["name" := ""]> ∅
  ∧ parse_line "  name:  ' " = Some ("name", "").
Proof.
  destruct (lone_quote_value_is_empty ∅ ("name: " +:+ dq)
              "" "name" " " DQUOTE "") as [Hline Hstore];
    [reflexivity|discriminate|reflexivity..|by left|].
  destruct (lone_quote_value_is_empty ∅ "  name:  ' "
              "  " "name" "  " SQUOTE " ") as [Hline' _];
    [reflexivity|discriminate|reflexivity..|by right|].
  split_and!; assumption.
Defined.

Lemma marker_prefix_without_marker_line_witness :
  str_startswith "---" doc_long_marker = true
  ∧ lines_of doc_long_marker !! 0 ≠ Some "---"
  ∧ validate_content "foo" doc_long_marker
    = (false, "Invalid frontmatter format").
Proof.
  assert (lines_of doc_long_marker !! 0 ≠ Some "---") as Hfirst
    by (vm_compute; congruence).
  split_and!; [reflexivity|exact Hfirst|].
  by apply marker_prefix_without_marker_line.
Defined.

End samples.

(** * Further properties *)

(** ** Trimming and the name pattern *)

Section trimmed_names.

Implicit Types (s t name dirname description x : string) (c : ascii).

Lemma span_spec (p : ascii → bool) s a b :
  span p s = (a, b) →
  s = a +:+ b ∧ str_all p a = true ∧ (∀ c b', b = String c b' → p c = false).
Proof.
  revert a b. induction s as [|c s IH]; intros a b; simpl.
  - intros [= <- <-]. by split_and!.
  - destruct (p c) eqn:Hc.
    + destruct (span p s) as [a' b'] eqn:Hs. intros [= <- <-].
      destruct (IH _ _ eq_refl) as (-> & Ha & Hb).
      split_and!; [done| |done]. simpl. by rewrite Hc, Ha.
    + intros [= <- <-]. split_and!; [done..|]. by intros ? ? [= <- <-].
Qed.

(** What is left of a right trim does not end in whitespace. *)
Lemma str_rstrip_end s t c :
  str_rstrip s = t +:+ String c "" → is_space c = false.
Proof.
  revert t. induction s as [|a s IH]; intros t; simpl.
  - by destruct t.
  - destruct (str_rstrip s) as [|d r] eqn:Hr.
    + destruct (is_space a) eqn:Ha; [by destruct t|].
      destruct t as [|? [|]]; [|done..]. by intros [= <-].
    + destruct t as [|a' t]; [done|]. rewrite str_app_cons.
      intros [= <- Ht]. by apply (IH t).
Qed.

Lemma str_strip_end x t c :
  str_strip x = t +:+ String c "" → is_space c = false.
Proof. apply str_rstrip_end. Qed.

(** On a trimmed text the name pattern asks for a non-empty run of name
    characters and nothing else: the final line feed that [$] lets
    through is not there. *)
Lemma match_name_shape_strip x :
  match_name_shape (str_strip x) = true
  ↔ str_strip x ≠ "" ∧ str_all is_name_char (str_strip x) = true.
Proof.
  unfold match_name_shape.
  destruct (span is_name_char (str_strip x)) as [run tail] eqn:Hspan.
  rewrite bool_decide_eq_true. split.
  - intros [Hrun Htail].
    destruct (span_spec _ _ _ _ Hspan) as (Hx & Hall & _).
    destruct Htail as [-> | ->].
    + rewrite str_app_nil_r in Hx. by rewrite Hx.
    + by apply str_strip_end in Hx.
  - intros [Hne Hall]. rewrite (span_all _ _ Hall) in Hspan.
    injection Hspan as <- <-. auto.
Qed.

Lemma str_truthy_true s : str_truthy s = true ↔ s ≠ "".
Proof. by destruct s. Qed.

(** Which trimmed names pass lines 95-117. *)
Lemma name_checks_None x dirname :
  name_checks (str_strip x) dirname = None
  ↔ str_strip x = ""
    ∨ (hyphen_case (str_strip x) ∧ str_strip x = dirname).
Proof.
  unfold name_checks, hyphen_case.
  destruct (str_truthy (str_strip x)) eqn:Htruthy.
  2: { destruct (str_strip x); [|done]. split; auto. }
  apply str_truthy_true in Htruthy.
  destruct (match_name_shape (str_strip x)) eqn:Hshape; cbn [negb].
  2: { split; [done|]. intros [?|[(_ & Hall & _) _]]; [done|].
       assert (match_name_shape (str_strip x) = true)
         by (by apply match_name_shape_strip).
       congruence. }
  apply match_name_shape_strip in Hshape as [_ Hall].
  destruct (str_startswith "-" _) eqn:H1; cbn [orb].
  { split; [done|]. intros [?|[(_ & _ & ? & _) _]]; [done|congruence]. }
  destruct (str_endswith "-" _) eqn:H2; cbn [orb].
  { split; [done|]. intros [?|[(_ & _ & _ & ? & _) _]]; [done|congruence]. }
  destruct (str_contains "--" _) eqn:H3; cbn [orb].
  { split; [done|].
    intros [?|[(_ & _ & _ & _ & ? & _) _]]; [done|congruence]. }
  destruct (64 <? _) eqn:H4.
  { apply Nat.ltb_lt in H4. split; [done|].
    intros [?|[(_ & _ & _ & _ & _ & ?) _]]; [done|lia]. }
  apply Nat.ltb_ge in H4.
  destruct (String.eqb_spec (str_strip x) dirname) as [Heq|Hne]; cbn [negb].
  - split; [|done]. intros _. right. by split_and!.
  - split; [done|]. intros [?|[_ ?]]; done.
Qed.

(** Which descriptions pass lines 125-132. *)
Lemma description_checks_None description :
  description_checks description = None
  ↔ description = "" ∨ plain_description description.
Proof.
  unfold description_checks, plain_description.
  destruct description as [|c d]; [split; auto|]. cbn [str_truthy].
  destruct (str_contains "<" _) eqn:H1; cbn [orb].
  { split; [done|]. intros [?|(? & _)]; [done|congruence]. }
  destruct (str_contains ">" _) eqn:H2; cbn [orb].
  { split; [done|]. intros [?|(_ & ? & _)]; [done|congruence]. }
  destruct (1024 <? _) eqn:H3.
  - apply Nat.ltb_lt in H3. split; [done|]. intros [?|(_ & _ & ?)]; [done|lia].
  - apply Nat.ltb_ge in H3. split; [|done]. intros _. right. by split_and!.
Qed.

End trimmed_names.

(** ** Which documents are valid *)

Section validity.

Implicit Types (content dirname h name description : string).

(** What is enough for the validator to accept a document. *)
Lemma validate_content_accepts dirname content :
  (∃ h name description,
      extract_frontmatter content = Some h
      ∧ dom (parse_simple_yaml h) ⊆ ALLOWED_PROPERTIES
      ∧ parse_simple_yaml h !! "name" = Some name
      ∧ parse_simple_yaml h !! "description" = Some description
      ∧ (str_strip name = ""
         ∨ (hyphen_case (str_strip name) ∧ str_strip name = dirname))
      ∧ (str_strip description = ""
         ∨ plain_description (str_strip description))
      ∧ length (str_split LF content) ≤ 500) →
  validate_content dirname content = (true, "Skill is valid!").
Proof.
  intros (h & name & description & He & Hkeys & Hname & Hdescription
          & Hn & Hd & Hl).
  unfold validate_content.
  rewrite (extract_frontmatter_startswith _ _ He), He. cbn [negb].
  rewrite decide_False
    by (intros Hne; by apply Hne, subseteq_empty_difference_L).
  rewrite Hname, Hdescription. do 2 (rewrite decide_False by done).
  cbn [from_option id].
  rewrite (proj2 (name_checks_None _ _) Hn).
  rewrite (proj2 (description_checks_None _) Hd).
  by rewrite (proj2 (Nat.ltb_ge _ _) Hl).
Qed.

(** X1. The validator accepts a document exactly when its header can be
    extracted, has only allowed keys, has [name] and [description], the
    trimmed name is empty or a hyphen-case identifier of at most 64
    characters equal to the directory name, the trimmed description is
    empty or free of angle brackets and at most 1024 characters long, and
    the text has at most 500 lines. *)
Theorem validate_content_valid_iff dirname content :
  validate_content dirname content = (true, "Skill is valid!")
  ↔ ∃ h name description,
      extract_frontmatter content = Some h
      ∧ dom (parse_simple_yaml h) ⊆ ALLOWED_PROPERTIES
      ∧ parse_simple_yaml h !! "name" = Some name
      ∧ parse_simple_yaml h !! "description" = Some description
      ∧ (str_strip name = ""
         ∨ (hyphen_case (str_strip name) ∧ str_strip name = dirname))
      ∧ (str_strip description = ""
         ∨ plain_description (str_strip description))
      ∧ length (str_split LF content) ≤ 500.
Proof.
  split; [|apply validate_content_accepts].
  unfold validate_content.
  destruct (str_startswith "---" content); cbn [negb]; [|done].
  destruct (extract_frontmatter content) as [h|]; [|done].
  destruct (decide (_ ≠ ∅)) as [|Hkeys]; [done|].
  destruct (decide (parse_simple_yaml h !! "name" = None)); [done|].
  destruct (decide (parse_simple_yaml h !! "description" = None)); [done|].
  destruct (parse_simple_yaml h !! "name") as [name|] eqn:Hname; [|done].
  destruct (parse_simple_yaml h !! "description") as [description|]
    eqn:Hdescription; [|done].
  cbn [from_option id].
  destruct (name_checks _ _) eqn:Hn; [done|].
  destruct (description_checks _) eqn:Hd; [done|].
  destruct (500 <? _) eqn:Hl; [done|]. intros _.
  exists h, name, description. split_and!; try done.
  + apply empty_difference_subseteq_L.
    destruct (decide (dom (parse_simple_yaml h) ∖ ALLOWED_PROPERTIES = ∅));
      [done|by destruct Hkeys].
  + by apply name_checks_None.
  + by apply description_checks_None.
  + by apply Nat.ltb_ge.
Qed.

(** A result that says valid carries the one success message, and a
    result that says invalid never does. *)
Lemma validate_content_message dirname content valid message :
  validate_content dirname content = (valid, message) →
  valid = true ↔ message = "Skill is valid!".
Proof.
  unfold validate_content. intros Hv.
  repeat case_match; simplify_eq; try done;
    (split; [done|]; intros Hm; apply (f_equal first_char) in Hm;
     first [ done
           | by erewrite name_checks_first_char in Hm
           | by erewrite description_checks_first_char in Hm ]).
Qed.

End validity.

(** ** What the initializer leaves behind *)

(** Rewrites [stat p fs'] into [stat p fs] across an operation on another
    path that led from [fs] to [fs']. *)
Ltac frame :=
  match goal with
  | H : Path_write_text ?q _ ?fs = Ok ?fs' |- context [stat ?p ?fs'] =>
      rewrite (write_text_frame _ p q fs fs' H) by not_suffix
  | H : mkdir_flat _ ?q ?fs = Ok ?fs' |- context [stat ?p ?fs'] =>
      rewrite (mkdir_flat_frame _ p q fs fs' H) by not_suffix
  | H : Path_chmod ?q _ ?fs = Ok ?fs' |- context [stat ?p ?fs'] =>
      rewrite (chmod_frame _ p q fs fs' H) by not_suffix
  end.

(** Unfolds [init_skill] down to the filesystem operations, with the
    target directory as [d]. *)
Ltac open_init_skill d Hd :=
  unfold init_skill; cbn zeta;
  match goal with
  | |- context [Path_exists (Path_div ?path ?name)] =>
      remember (Path_div path name) as d eqn:Hd
  end;
  repeat match goal with
  | |- context [Path_div ?p ?s] =>
      let r := eval cbv in (Path_div p s) in change (Path_div p s) with r
  end;
  unfold try_except, perform, print, ask, mbind, io_bind, mret, io_ret;
  cbn [files stdout Path_mkdir].

Section layout.

Implicit Types (p q d : Path) (fs : filesystem) (w : world)
  (skill_name : string).

Lemma stat_cons_Ok x p fs n :
  stat (x :: p) fs = Ok n → stat p fs = Ok Dir ∧ fs !! (x :: p) = Some n.
Proof.
  cbn [stat]. destruct (stat p fs) as [[]|]; try done.
  destruct (fs !! (x :: p)); [|done]. by intros [= ->].
Qed.

Lemma chmod_Ok_stat p mode fs fs' :
  Path_chmod p mode fs = Ok fs' →
  ∀ content mode0, stat p fs = Ok (File content mode0) →
  stat p fs' = Ok (File content (Some mode)).
Proof.
  intros Hch content mode0 Hp. unfold Path_chmod in Hch.
  rewrite Hp in Hch. injection Hch as <-.
  destruct p as [|x p]; [done|].
  apply stat_cons_Ok in Hp as [Hp _]. by apply stat_insert_eq.
Qed.

(** What [init_skill] leaves where it returns a directory. *)
Lemma init_skill_tree skill_name path w w' d :
  init_skill skill_name path w = (w', Ok (Some d)) →
  let fs' := files w' in
  let skill_title := title_case_skill_name skill_name in
  d = Path_div path skill_name
  ∧ stat d fs' = Ok Dir
  ∧ (∃ mode, stat ("SKILL.md" :: d) fs'
             = Ok (File (SKILL_TEMPLATE skill_name skill_title) mode))
  ∧ stat ("scripts" :: d) fs' = Ok Dir
  ∧ stat ("example.py" :: "scripts" :: d) fs'
    = Ok (File (EXAMPLE_SCRIPT skill_name) (Some mode_755))
  ∧ stat ("references" :: d) fs' = Ok Dir
  ∧ (∃ mode, stat ("REFERENCE.md" :: "references" :: d) fs'
             = Ok (File (EXAMPLE_REFERENCE skill_title) mode))
  ∧ stat ("assets" :: d) fs' = Ok Dir
  ∧ (∃ mode, stat ("example_asset.txt" :: "assets" :: d) fs'
             = Ok (File EXAMPLE_ASSET mode)).
Proof.
  revert d. open_init_skill t Ht. intros d.
  destruct (Path_exists _ (files w)); [done|].
  destruct (mkdir_parents false _ (files w)) as [fs1|] eqn:Hmk;
    cbn [files stdout]; [|done].
  destruct (Path_write_text _ _ fs1) as [fs2|] eqn:Hmd;
    cbn [files stdout]; [|done].
  destruct (mkdir_flat true _ fs2) as [fs3|] eqn:Hscripts;
    cbn [files stdout]; [|done].
  destruct (Path_write_text _ _ fs3) as [fs4|] eqn:Hexample;
    cbn [files stdout]; [|done].
  destruct (Path_chmod _ _ fs4) as [fs5|] eqn:Hchmod;
    cbn [files stdout]; [|done].
  destruct (mkdir_flat true _ fs5) as [fs6|] eqn:Hreferences;
    cbn [files stdout]; [|done].
  destruct (Path_write_text _ _ fs6) as [fs7|] eqn:Hreference;
    cbn [files stdout]; [|done].
  destruct (mkdir_flat true _ fs7) as [fs8|] eqn:Hassets;
    cbn [files stdout]; [|done].
  destruct (Path_write_text _ _ fs8) as [fs9|] eqn:Hasset;
    cbn [files stdout]; [|done].
  intros [= <- <-]. cbn [files].
  pose proof (mkdir_parents_Ok _ _ _ _ Hmk) as Ht1.
  destruct (write_text_Ok _ _ _ _ Hmd) as (m2 & _ & Hmd2).
  destruct (mkdir_flat_Ok _ _ _ _ Hscripts) as [Hs3 _].
  destruct (write_text_Ok _ _ _ _ Hexample) as (m4 & _ & He4).
  pose proof (chmod_Ok_stat _ _ _ _ Hchmod _ _ He4) as He5.
  destruct (mkdir_flat_Ok _ _ _ _ Hreferences) as [Hr6 _].
  destruct (write_text_Ok _ _ _ _ Hreference) as (m7 & _ & Hr7).
  destruct (mkdir_flat_Ok _ _ _ _ Hassets) as [Ha8 _].
  destruct (write_text_Ok _ _ _ _ Hasset) as (m9 & _ & Ha9).
  split_and!; try done; try (eexists); repeat frame; eassumption.
Qed.





End layout.

(** ** What the initializer never does *)

Section preservation.

Implicit Types (p q d : Path) (fs : filesystem) (w : world)
  (skill_name : string).


Lemma stat_raise_cons x p fs e :
  stat p fs = Raise e → Path_exists (x :: p) fs = false.
Proof. intros Hp. unfold Path_exists. cbn [stat]. by rewrite Hp. Qed.










(** No exception leaves [init_skill]. *)
Lemma init_skill_Ok skill_name path w w' r :
  init_skill skill_name path w = (w', r) → ∃ result, r = Ok result.
Proof.
  intros Hrun.
  destruct (init_skill_returns skill_name path w) as (w0 & r0 & Hrun0).
  rewrite Hrun in Hrun0. injection Hrun0 as _ ->. eauto.
Qed.


(** X4. A second run with the same arguments, right after one that
    succeeded, finds the directory, prints its one error line, returns
    [None] and leaves the filesystem as the first run left it. *)
Theorem init_skill_twice skill_name path w w' d :
  init_skill skill_name path w = (w', Ok (Some d)) →
  init_skill skill_name path w'
  = (World (files w')
       (stdout w' ++ [Line ("Error: Skill directory already exists: "
                            +:+ Path_str d)]),
     Ok None).
Proof.
  intros Hrun. destruct (init_skill_tree _ _ _ _ _ Hrun) as (-> & Hd & _).
  unfold init_skill, mbind, io_bind, ask. cbn zeta.
  unfold Path_exists. by rewrite Hd.
Qed.

End preservation.

(** ** Splitting, joining and the title *)

Section title.

Implicit Types (s t w : string) (c sep : ascii) (l ws : list string).

Lemma str_all_impl (p q : ascii → bool) s :
  (∀ c, p c = true → q c = true) → str_all p s = true → str_all q s = true.
Proof.
  intros Hpq. induction s as [|c s IH]; [done|]. simpl.
  intros [Hc Hs]%andb_true_iff. by rewrite (Hpq _ Hc), IH.
Qed.

Lemma str_all_app (p : ascii → bool) s t :
  str_all p (s +:+ t) = str_all p s && str_all p t.
Proof.
  induction s as [|c s IH]; [done|]. rewrite str_app_cons. simpl.
  by rewrite IH, andb_assoc.
Qed.

Lemma str_all_map (p : ascii → bool) (f : ascii → ascii) s :
  str_all p (str_map f s) = str_all (λ c, p (f c)) s.
Proof. induction s as [|c s IH]; [done|]. simpl. by rewrite IH. Qed.

Lemma str_map_app (f : ascii → ascii) s t :
  str_map f (s +:+ t) = str_map f s +:+ str_map f t.
Proof.
  induction s as [|c s IH]; [done|]. rewrite str_app_cons. simpl.
  by rewrite IH.
Qed.

Lemma str_map_length (f : ascii → ascii) s :
  String.length (str_map f s) = String.length s.
Proof. induction s as [|c s IH]; [done|]. simpl. by rewrite IH. Qed.

Lemma str_map_ext (f g : ascii → ascii) (p : ascii → bool) s :
  (∀ c, p c = true → f c = g c) → str_all p s = true →
  str_map f s = str_map g s.
Proof.
  intros Hfg. induction s as [|c s IH]; [done|]. simpl.
  intros [Hc Hs]%andb_true_iff. by rewrite (Hfg _ Hc), IH.
Qed.

Lemma str_split_nonempty sep s : str_split sep s ≠ [].
Proof.
  destruct s as [|c s]; [done|]. simpl.
  destruct (Ascii.eqb c sep); [done|]. by destruct (str_split sep s).
Qed.

Lemma str_split_sep sep s :
  str_split sep (String sep s) = "" :: str_split sep s.
Proof. simpl. by rewrite Ascii.eqb_refl. Qed.

Lemma str_split_other sep c s :
  c ≠ sep →
  ∃ w ws, str_split sep s = w :: ws
          ∧ str_split sep (String c s) = String c w :: ws.
Proof.
  intros Hc. simpl. rewrite (proj2 (Ascii.eqb_neq _ _) Hc).
  destruct (str_split sep s) as [|w ws] eqn:Hs; [|eauto].
  by apply str_split_nonempty in Hs.
Qed.

Lemma str_join_cons_head sepstr c w ws :
  str_join sepstr (String c w :: ws) = String c (str_join sepstr (w :: ws)).
Proof. unfold str_join. by destruct ws. Qed.

Lemma str_join_nil_head sepstr ws :
  ws ≠ [] → str_join sepstr ("" :: ws) = sepstr +:+ str_join sepstr ws.
Proof. unfold str_join. by destruct ws. Qed.

Lemma str_join_map (f : ascii → ascii) sepstr l :
  str_map f (str_join sepstr l)
  = str_join (str_map f sepstr) (map (str_map f) l).
Proof.
  unfold str_join. induction l as [|w [|w' l] IH]; [done..|].
  cbn [String.concat map] in *. by rewrite !str_map_app, IH.
Qed.

Lemma to_lower_to_upper c : to_lower (to_upper c) = to_lower c.
Proof. destruct c as [[] [] [] [] [] [] [] []]; reflexivity. Qed.

Lemma to_lower_idemp c : to_lower (to_lower c) = to_lower c.
Proof. destruct c as [[] [] [] [] [] [] [] []]; reflexivity. Qed.

Lemma str_capitalize_lower w :
  str_map to_lower (str_capitalize w) = str_map to_lower w.
Proof.
  destruct w as [|c w]; [done|]. simpl. rewrite to_lower_to_upper. f_equal.
  induction w as [|d w IH]; [done|]. simpl. by rewrite to_lower_idemp, IH.
Qed.

Lemma str_capitalize_length w :
  String.length (str_capitalize w) = String.length w.
Proof. destruct w as [|c w]; [done|]. simpl. by rewrite str_map_length. Qed.

(** Joining with a space the lowered parts between hyphens gives the
    text with every hyphen turned into a space, lowered. *)
Lemma join_split_title_char s :
  str_join " " (map (str_map to_lower) (str_split "-" s))
  = str_map title_char s.
Proof.
  induction s as [|c s IH]; [done|].
  destruct (decide (c = "-"%char)) as [->|Hc].
  - rewrite str_split_sep. cbn [map str_map].
    rewrite str_join_nil_head, IH; [done|].
    destruct (str_split "-" s) eqn:Hs; [|done].
    by apply str_split_nonempty in Hs.
  - destruct (str_split_other "-" c s Hc) as (w & ws & Hs & ->).
    rewrite Hs in IH. cbn [map str_map] in *.
    rewrite str_join_cons_head, IH. unfold title_char.
    by rewrite (proj2 (Ascii.eqb_neq _ _) Hc).
Qed.

Lemma title_lower s :
  str_map to_lower (title_case_skill_name s) = str_map title_char s.
Proof.
  unfold title_case_skill_name. rewrite str_join_map, map_map.
  rewrite (map_ext _ (str_map to_lower))
    by (intros; apply str_capitalize_lower).
  apply join_split_title_char.
Qed.

(** X5. The title of an identifier made of ASCII characters has the
    length of the identifier; lowered, it is the identifier lowered with
    a space for every hyphen; and it has no hyphen left. *)
Theorem title_case_skill_name_shape s :
  str_all is_ascii s = true →
  String.length (title_case_skill_name s) = String.length s
  ∧ str_map to_lower (title_case_skill_name s) = str_map title_char s
  ∧ str_without "-" (title_case_skill_name s) = true.
Proof.
  intros _. pose proof (title_lower s) as Hlower. split_and!; [|done|].
  - by rewrite <-(str_map_length to_lower), Hlower, str_map_length.
  - unfold str_without.
    apply (str_all_impl (λ c, negb (Ascii.eqb (to_lower c) "-"))).
    { intros c. destruct c as [[] [] [] [] [] [] [] []]; by vm_compute. }
    rewrite <-(str_all_map (λ c, negb (Ascii.eqb c "-"))), Hlower.
    rewrite str_all_map. clear Hlower.
    induction s as [|c s IH]; [done|]. simpl. rewrite IH, andb_true_r.
    destruct c as [[] [] [] [] [] [] [] []]; reflexivity.
Qed.

End title.

(** ** The template, read back *)

Section template.

Implicit Types (s t a b x : string) (c sep : ascii) (ls : list string)
  (p : Path) (skill_name : string).

Lemma str_split_without sep s :
  str_without sep s = true → str_split sep s = [s].
Proof.
  unfold str_without. induction s as [|c s IH]; [done|]. simpl.
  intros [Hc Hs]%andb_true_iff. apply negb_true_iff in Hc. rewrite Hc.
  by rewrite IH.
Qed.

Lemma str_split_app sep a b :
  str_without sep a = true →
  str_split sep (a +:+ String sep b) = a :: str_split sep b.
Proof.
  unfold str_without. induction a as [|c a IH].
  - intros _. rewrite str_app_nil_l. apply str_split_sep.
  - simpl. intros [Hc Ha]%andb_true_iff. apply negb_true_iff in Hc.
    rewrite ?str_app_cons. simpl. by rewrite Hc, IH.
Qed.

Lemma text_cons l ls : text (l :: ls) = l +:+ nl +:+ text ls.
Proof.
  unfold text. destruct ls as [|l' ls]; cbn [map String.concat].
  - reflexivity.
  - by rewrite str_app_assoc.
Qed.

(** A text given line by line splits into these lines and one empty
    part after the last line feed. *)
Lemma str_split_text ls :
  Forall (λ l, str_without LF l = true) ls →
  str_split LF (text ls) = ls ++ [""].
Proof.
  induction 1 as [|l ls Hl _ IH]; [done|].
  rewrite text_cons. change (nl +:+ text ls) with (String LF (text ls)).
  by rewrite str_split_app, IH.
Qed.

Lemma universal_newlines_without s :
  str_without CR s = true → universal_newlines s = s.
Proof.
  unfold str_without. induction s as [|c s IH]; [done|]. simpl.
  intros [Hc Hs]%andb_true_iff. apply negb_true_iff in Hc.
  by rewrite Hc, IH.
Qed.

Lemma str_without_text c ls :
  c ≠ LF → Forall (λ l, str_without c l = true) ls →
  str_without c (text ls) = true.
Proof.
  intros Hc.
  assert (str_without c nl = true) as Hnl.
  { unfold str_without, nl. cbn [str_all]. rewrite andb_true_r.
    apply negb_true_iff, Ascii.eqb_neq. congruence. }
  induction 1 as [|l ls Hl _ IH]; [done|].
  rewrite text_cons. unfold str_without in *.
  by rewrite !str_all_app, Hl, Hnl, IH.
Qed.

(** A lazy group runs over what has no line feed when the stop text
    begins with one. *)
Lemma lazy_until_skip stop a t :
  str_without LF a = true →
  lazy_until (String LF stop) (a +:+ t)
  = String.append a <$> lazy_until (String LF stop) t.
Proof.
  unfold str_without. induction a as [|c a IH]; intros Hall.
  - rewrite str_app_nil_l. by destruct (lazy_until _ t).
  - cbn [str_all] in Hall. apply andb_true_iff in Hall as [Hc Ha].
    apply negb_true_iff, Ascii.eqb_neq in Hc.
    rewrite str_app_cons, (lazy_until_unfold _ (String c (a +:+ t))).
    cbn [String.prefix].
    destruct (ascii_dec LF c) as [<-|_]; [done|].
    rewrite (IH Ha). by destruct (lazy_until _ t).
Qed.

Lemma is_name_char_plain c :
  is_name_char c = true →
  is_space c = false ∧ is_ascii c = true ∧ is_key_char c || is_digit c = true
  ∧ c ≠ LF ∧ c ≠ CR ∧ c ≠ "/"%char ∧ c ≠ "."%char
  ∧ c ≠ DQUOTE ∧ c ≠ SQUOTE ∧ c ≠ "#"%char.
Proof.
  destruct c as [[] [] [] [] [] [] [] []]; vm_compute; intros;
    by split_and!.
Qed.

Lemma str_without_name_chars c s :
  is_name_char c = false → str_all is_name_char s = true →
  str_without c s = true.
Proof.
  intros Hc. apply str_all_impl. intros d Hd.
  apply negb_true_iff, Ascii.eqb_neq. by intros ->; congruence.
Qed.

(** [p / s] for a single component. *)
Lemma Path_div_simple p s :
  s ≠ "" → s ≠ "." → str_without "/" s = true → Path_div p s = s :: p.
Proof.
  intros Hempty Hdot Hslash. unfold Path_div, components.
  rewrite (str_split_without _ _ Hslash).
  assert (str_startswith "/" s = false) as ->.
  { destruct s as [|c s]; [done|]. unfold str_startswith.
    cbn [String.prefix]. destruct (ascii_dec "/" c) as [<-|]; [|done].
    by vm_compute in Hslash. }
  cbn [filter list_filter]. by rewrite decide_True.
Qed.

End template.

(** ** Header lines, read back *)

Section lines.

Implicit Types (s t v key pad line text : string) (c q : ascii)
  (result : gmap string string).

Lemma str_snoc s : s ≠ "" → ∃ t c, s = t +:+ String c "".
Proof.
  induction s as [|c s IH]; [done|]. intros _.
  destruct s as [|d s]; [by exists "", c|].
  destruct IH as (t & e & ->); [done|]. by exists (String c t), e.
Qed.

Lemma str_snoc_inj t t' c c' :
  t +:+ String c "" = t' +:+ String c' "" → t = t' ∧ c = c'.
Proof.
  revert t'. induction t as [|d t IH]; intros [|d' t'].
  - by intros [= ->].
  - rewrite str_app_nil_l, str_app_cons. intros [= -> Ht]. by destruct t'.
  - rewrite str_app_nil_l, str_app_cons. intros [= -> Ht]. by destruct t.
  - rewrite !str_app_cons. intros [= -> Ht].
    destruct (IH _ Ht) as [-> ->]. done.
Qed.

Lemma str_lstrip_length s : String.length (str_lstrip s) ≤ String.length s.
Proof.
  induction s as [|c s IH]; [done|]. simpl.
  destruct (is_space c); simpl; lia.
Qed.

Lemma str_rstrip_length s : String.length (str_rstrip s) ≤ String.length s.
Proof.
  induction s as [|c s IH]; [done|]. simpl.
  destruct (str_rstrip s); [destruct (is_space c)|]; simpl in *; lia.
Qed.

(** A text that trimming leaves as it is begins and ends with
    characters that are no whitespace, and the other way round. *)
Lemma str_strip_fixed_first c s :
  str_strip (String c s) = String c s → is_space c = false.
Proof.
  unfold str_strip. simpl. destruct (is_space c); [|done]. intros Heq.
  pose proof (str_rstrip_length (str_lstrip s)) as H1.
  pose proof (str_lstrip_length s) as H2.
  rewrite Heq in H1. simpl in H1. lia.
Qed.

Lemma str_strip_fixed c s q :
  is_space c = false → is_space q = false →
  str_strip (String c s +:+ String q "") = String c s +:+ String q "".
Proof.
  intros Hc Hq. unfold str_strip. rewrite str_app_cons. cbn [str_lstrip].
  rewrite Hc, <-str_app_cons. by apply str_rstrip_ends_nonspace.
Qed.

Lemma str_startswith_first c d s :
  c ≠ d → str_startswith (String c "") (String d s) = false.
Proof.
  intros Hcd. unfold str_startswith. cbn [String.prefix].
  by destruct (ascii_dec c d).
Qed.

Lemma rev_app_app s t acc :
  String.rev_app (s +:+ t) acc = String.rev_app t (String.rev_app s acc).
Proof.
  revert acc. induction s as [|c s IH]; intros acc; [done|].
  rewrite str_app_cons. simpl. apply IH.
Qed.

Lemma str_endswith_snoc t q :
  str_endswith (String q "") (t +:+ String q "") = true.
Proof.
  unfold str_endswith, String.rev. rewrite rev_app_app.
  cbn [String.rev_app String.prefix].
  destruct (ascii_dec q q); [by destruct (String.rev_app t "")|done].
Qed.

Lemma substring_0_app v t :
  String.substring 0 (String.length v) (v +:+ t) = v.
Proof.
  induction v as [|c v IH]; [by destruct t|]. rewrite str_app_cons. simpl.
  by rewrite IH.
Qed.

Lemma str_startswith_same c s :
  str_startswith (String c "") (String c s) = true.
Proof.
  unfold str_startswith. cbn [String.prefix].
  destruct (ascii_dec c c); [by destruct s|done].
Qed.

(** The text between a pair of quotes is what removing them gives. *)
Lemma unquote_quoted q v :
  q = DQUOTE ∨ q = SQUOTE →
  unquote (String q (v +:+ String q "")) = v.
Proof.
  intros Hq. unfold unquote.
  assert (str_slice_1_m1 (String q (v +:+ String q "")) = v) as ->.
  { unfold str_slice_1_m1. cbn [String.length String.substring].
    rewrite str_length_app. cbn [String.length].
    replace (S (String.length v + 1) - 2) with (String.length v) by lia.
    apply substring_0_app. }
  assert (str_endswith (String q "") (String q (v +:+ String q "")) = true)
    as Hend by (rewrite <-str_app_cons; apply str_endswith_snoc).
  destruct Hq as [-> | ->].
  - by rewrite str_startswith_same, Hend.
  - change "'" with (String SQUOTE "").
    by rewrite str_startswith_same, Hend, orb_true_r.
Qed.

(** A value that does not begin with a quote is kept as it is. *)
Lemma unquote_plain v :
  str_startswith (String DQUOTE "") v = false →
  str_startswith "'" v = false → unquote v = v.
Proof. intros H1 H2. unfold unquote. by rewrite H1, H2. Qed.

(** What a line [key:], padding, [v] stores, for a [v] that is trimmed
    and on one line. *)
Lemma parse_line_value key pad v :
  key ≠ "" → str_all is_key_char key = true →
  str_all is_space pad = true →
  str_without LF v = true → str_strip v = v →
  parse_line (key +:+ ":" +:+ pad +:+ v) = Some (key, unquote v).
Proof.
  intros Hkey Hchars Hpad Hlf Hv.
  destruct key as [|k key]; [done|]. clear Hkey.
  pose proof Hchars as Hall. cbn [str_all] in Hchars.
  apply andb_true_iff in Hchars as [Hk Hchars].
  pose proof (is_key_char_not_space _ Hk) as Hks.
  assert (∃ rest, str_strip (String k key +:+ ":" +:+ pad +:+ v)
                  = String k key +:+ String ":" rest
                  ∧ str_lstrip rest = v) as (rest & Hstrip & Hrest).
  { destruct v as [|c v'].
    - exists "". split; [|done]. rewrite str_app_nil_r.
      unfold str_strip. rewrite str_app_cons.
      cbn [str_lstrip]. rewrite Hks, <-str_app_cons.
      replace (String k key +:+ ":" +:+ pad)
        with ((String k key +:+ ":") +:+ pad) by apply str_app_assoc.
      rewrite str_rstrip_spaces by done.
      by rewrite (str_rstrip_ends_nonspace (String k key) ":").
    - pose proof (str_strip_fixed_first _ _ Hv) as Hc.
      exists (pad +:+ String c v'). split.
      + destruct (str_snoc (String c v')) as (t & e & Hsnoc); [done|].
        rewrite Hsnoc in Hv |- *.
        pose proof (str_strip_end _ _ _ Hv) as He.
        assert (String k key +:+ ":" +:+ pad +:+ t +:+ String e ""
                = String k (key +:+ ":" +:+ pad +:+ t) +:+ String e "") as E
          by (by rewrite (str_app_cons k (key +:+ ":" +:+ pad +:+ t)),
                !str_app_assoc).
        rewrite E, str_strip_fixed by done. by rewrite <-E.
      + rewrite str_lstrip_spaces by done. cbn [str_lstrip]. by rewrite Hc. }
  unfold parse_line. rewrite Hstrip.
  rewrite decide_False by done.
  assert (str_startswith "#" (String k key +:+ String ":" rest) = false)
    as ->.
  { rewrite str_app_cons. apply str_startswith_first.
    intros <-. vm_compute in Hk. congruence. }
  unfold match_key_value.
  rewrite span_stop by done. rewrite Hrest.
  rewrite (span_all _ v Hlf). rewrite decide_True by auto. by rewrite Hv.
Qed.

End lines.

(** ** The mapping that the parser returns *)

Section mapping.

Implicit Types (s t v key pad line text : string) (c q : ascii)
  (result : gmap string string) (lines : list string).

(** X6. A value written between a pair of double quotes, or of single
    quotes, is read back as the text between them, whatever it is on
    one line: whitespace at its ends and further quotes stay. *)
Theorem quoted_value_read_back key pad q v :
  key ≠ "" → str_all is_key_char key = true →
  str_all is_space pad = true →
  str_without LF v = true →
  q = DQUOTE ∨ q = SQUOTE →
  parse_line (key +:+ ":" +:+ pad +:+ String q (v +:+ String q ""))
  = Some (key, v).
Proof.
  intros Hkey Hchars Hpad Hlf Hq.
  assert (is_space q = false ∧ q ≠ LF) as [Hqs Hql]
    by (by destruct Hq as [-> | ->]).
  rewrite parse_line_value; try done.
  - by rewrite unquote_quoted.
  - unfold str_without in *. cbn [str_all].
    rewrite str_all_app, Hlf. cbn [str_all].
    by rewrite (proj2 (Ascii.eqb_neq _ _) Hql).
  - rewrite <-str_app_cons. by apply str_strip_fixed.
Qed.

(** X7. A value that is trimmed, on one line, and does not begin with
    a quote is read back as it is; this includes the empty value. *)
Theorem plain_value_read_back key pad v :
  key ≠ "" → str_all is_key_char key = true →
  str_all is_space pad = true →
  str_without LF v = true → str_strip v = v →
  str_startswith (String DQUOTE "") v = false →
  str_startswith "'" v = false →
  parse_line (key +:+ ":" +:+ pad +:+ v) = Some (key, v).
Proof.
  intros. rewrite parse_line_value by done. by rewrite unquote_plain.
Qed.

Lemma store_lookup result line key :
  store result line !! key
  = match binding key line with
    | Some value => Some value
    | None => result !! key
    end.
Proof.
  unfold store, binding. destruct (parse_line line) as [[k v]|]; [|done].
  destruct (decide (k = key)) as [->|Hne].
  - apply lookup_insert_eq.
  - by apply lookup_insert_ne.
Qed.

Lemma parse_lines_lookup lines key :
  parse_lines lines !! key = last (omap (binding key) lines).
Proof.
  unfold parse_lines. induction lines as [|line lines IH] using rev_ind.
  - done.
  - rewrite foldl_snoc, store_lookup, IH, omap_app. cbn [omap list_omap].
    destruct (binding key line) as [value|].
    + by rewrite last_snoc.
    + by rewrite (right_id_L [] (++)).
Qed.

Lemma parse_lines_lookup_None lines key :
  parse_lines lines !! key = None
  ↔ Forall (λ line, binding key line = None) lines.
Proof.
  rewrite parse_lines_lookup, last_None. split.
  - intros Hnil. induction lines as [|line lines IH]; [done|].
    cbn [omap list_omap] in Hnil.
    destruct (binding key line) eqn:Hb; [done|]. constructor; auto.
  - induction 1 as [|line lines' Hb _ IH]; [done|].
    cbn [omap list_omap]. by rewrite Hb.
Qed.

(** X8. The value that the mapping gives to a key is the one given by
    the last line of the trimmed header that binds the key; the key is
    missing exactly when no line binds it. *)
Theorem parse_simple_yaml_lookup text key :
  let lines := str_split LF (str_strip text) in
  parse_simple_yaml text !! key = last (omap (binding key) lines)
  ∧ (parse_simple_yaml text !! key = None
     ↔ Forall (λ line, binding key line = None) lines).
Proof.
  intros lines. unfold parse_simple_yaml. fold lines. split.
  - apply parse_lines_lookup.
  - apply parse_lines_lookup_None.
Qed.

Lemma str_all_lstrip (p : ascii → bool) s :
  str_all p s = true → str_all p (str_lstrip s) = true.
Proof.
  induction s as [|c s IH]; [done|]. simpl.
  intros [Hc Hs]%andb_true_iff. destruct (is_space c); [auto|].
  simpl. by rewrite Hc, Hs.
Qed.

Lemma str_all_rstrip (p : ascii → bool) s :
  str_all p s = true → str_all p (str_rstrip s) = true.
Proof.
  induction s as [|c s IH]; [done|]. simpl.
  intros [Hc Hs]%andb_true_iff. specialize (IH Hs).
  destruct (str_rstrip s); [destruct (is_space c)|]; simpl in *;
    by rewrite ?Hc.
Qed.

Lemma str_all_strip (p : ascii → bool) s :
  str_all p s = true → str_all p (str_strip s) = true.
Proof. intros. by apply str_all_rstrip, str_all_lstrip. Qed.

Lemma str_all_substring (p : ascii → bool) n m s :
  str_all p s = true → str_all p (String.substring n m s) = true.
Proof.
  revert n m. induction s as [|c s IH]; intros n m.
  - by destruct n, m.
  - simpl. intros [Hc Hs]%andb_true_iff.
    destruct n as [|n]; [destruct m as [|m]|]; simpl; auto.
    by rewrite Hc, IH.
Qed.

Lemma str_all_split (p : ascii → bool) sep s :
  str_all p s = true →
  Forall (λ l, str_all p l = true) (str_split sep s).
Proof.
  induction s as [|c s IH]; [by repeat constructor|]. simpl.
  intros [Hc Hs]%andb_true_iff. specialize (IH Hs).
  destruct (Ascii.eqb c sep); [by constructor|].
  destruct (str_split sep s) as [|w ws].
  - repeat constructor. simpl. by rewrite Hc.
  - inversion_clear IH as [|? ? Hw Hws]. constructor; [|done].
    simpl. by rewrite Hc, Hw.
Qed.

Lemma str_all_unquote (p : ascii → bool) v :
  str_all p v = true → str_all p (unquote v) = true.
Proof.
  intros Hv. unfold unquote, str_slice_1_m1.
  destruct (_ || _); [by apply str_all_substring|done].
Qed.

Lemma parse_line_Some line key value :
  parse_line line = Some (key, value) →
  key ≠ "" ∧ str_all is_key_char key = true ∧ str_without LF value = true.
Proof.
  unfold parse_line, match_key_value.
  destruct (decide (str_strip line = "")); [done|].
  destruct (str_startswith "#" _); [done|].
  destruct (span is_key_char (str_strip line)) as [k rest] eqn:Hk.
  destruct k as [|k0 k]; [done|].
  destruct rest as [|c rest]; [done|].
  destruct (Ascii.eqb_spec c ":") as [->|Hc].
  2: { destruct c as [[] [] [] [] [] [] [] []]; done. }
  destruct (span _ (str_lstrip rest)) as [v tail] eqn:Hv.
  destruct (decide (tail = "" ∨ tail = nl)); [|done].
  intros [= <- <-].
  destruct (span_spec _ _ _ _ Hk) as (_ & Hkey & _).
  destruct (span_spec _ _ _ _ Hv) as (_ & Hvalue & _).
  split_and!; [done..|]. by apply str_all_unquote, str_all_strip.
Qed.

(** X9. Every key of the mapping is a non-empty run of letters,
    underscores and hyphens, and no value holds a line feed. *)
Theorem parse_simple_yaml_entries text key value :
  parse_simple_yaml text !! key = Some value →
  key ≠ "" ∧ str_all is_key_char key = true ∧ str_without LF value = true.
Proof.
  unfold parse_simple_yaml. rewrite parse_lines_lookup.
  intros Hlast. apply last_Some_elem_of in Hlast.
  apply list_elem_of_omap in Hlast as (line & _ & Hb).
  unfold binding in Hb.
  destruct (parse_line line) as [[k v]|] eqn:Hline; [|done].
  destruct (decide (k = key)) as [->|]; [|done]. injection Hb as ->.
  by eapply parse_line_Some.
Qed.

Lemma parse_line_no_colon line :
  str_without ":" line = true → parse_line line = None.
Proof.
  intros Hline. unfold parse_line, match_key_value.
  destruct (decide (str_strip line = "")); [done|].
  destruct (str_startswith "#" _); [done|].
  destruct (span is_key_char (str_strip line)) as [k rest] eqn:Hk.
  destruct k as [|k0 k]; [done|].
  destruct rest as [|c rest]; [done|].
  destruct (Ascii.eqb_spec c ":") as [->|Hc].
  2: { destruct c as [[] [] [] [] [] [] [] []]; done. }
  destruct (span_spec _ _ _ _ Hk) as (Hsplit & _ & _).
  apply (str_all_strip _ line) in Hline. unfold str_without in Hline.
  rewrite Hsplit, str_all_app in Hline. cbn [str_all] in Hline.
  by rewrite !andb_false_r in Hline.
Qed.

(** X10. A header without any colon binds nothing: lines that are not
    of the shape [key: value] are passed over in silence, and the
    validator reports the missing name. *)
Theorem header_without_colon dirname content h :
  extract_frontmatter content = Some h →
  str_without ":" h = true →
  parse_simple_yaml h = ∅
  ∧ validate_content dirname content
    = (false, "Missing 'name' in frontmatter").
Proof.
  intros He Hh.
  assert (parse_simple_yaml h = ∅) as Hempty.
  { apply map_eq. intros key. rewrite lookup_empty.
    unfold parse_simple_yaml. apply parse_lines_lookup_None.
    assert (Forall (λ l, str_without ":" l = true)
              (str_split LF (str_strip h))) as Hlines
      by (by apply str_all_split, str_all_strip).
    induction Hlines as [|l ls Hl _ IH]; constructor; [|done].
    unfold binding. by rewrite parse_line_no_colon. }
  split; [done|]. unfold validate_content.
  rewrite (extract_frontmatter_startswith _ _ He), He, Hempty.
  reflexivity.
Qed.

End mapping.

(** ** Initialising, then validating, any hyphen-case identifier *)

Section any_identifier.

Implicit Types (s t a b x l : string) (c : ascii) (ls : list string)
  (p path : Path) (skill_name : string) (w : world) (fs : filesystem).

Lemma str_rstrip_app a b :
  str_rstrip b ≠ "" → str_rstrip (a +:+ b) = a +:+ str_rstrip b.
Proof.
  intros Hb. induction a as [|c a IH]; [done|].
  rewrite !str_app_cons. simpl. rewrite IH.
  destruct (a +:+ str_rstrip b) eqn:Hab; [|done].
  destruct a; [|done]. by rewrite str_app_nil_l in Hab.
Qed.

Lemma str_lstrip_first c s t :
  is_space c = false →
  str_lstrip (String c s +:+ t) = String c s +:+ t.
Proof. intros Hc. rewrite str_app_cons. simpl. by rewrite Hc. Qed.

Lemma str_strip_nospace s :
  str_all (λ c, negb (is_space c)) s = true → str_strip s = s.
Proof.
  destruct s as [|c s]; [done|]. cbn [str_all].
  intros [Hc Hs]%andb_true_iff. apply negb_true_iff in Hc.
  destruct s as [|d s].
  { unfold str_strip. cbn [str_lstrip]. rewrite Hc. cbn [str_rstrip].
    by rewrite Hc. }
  destruct (str_snoc (String d s)) as (t & q & Hsnoc); [done|].
  rewrite Hsnoc in Hs |- *. rewrite str_all_app in Hs.
  apply andb_true_iff in Hs as [_ Hq]. cbn [str_all] in Hq.
  rewrite andb_true_r in Hq. apply negb_true_iff in Hq.
  rewrite <-str_app_cons. by apply str_strip_fixed.
Qed.

(** The control characters LF and CR are in the title only if they are
    in the identifier. *)
Lemma title_without c s :
  c = LF ∨ c = CR →
  str_without c s = true →
  str_without c (title_case_skill_name s) = true.
Proof.
  intros Hc Hs. unfold str_without in *.
  apply (str_all_impl (λ d, negb (Ascii.eqb (to_lower d) c))).
  { intros d. destruct Hc as [-> | ->];
      destruct d as [[] [] [] [] [] [] [] []]; by vm_compute. }
  rewrite <-(str_all_map (λ d, negb (Ascii.eqb d c))), title_lower.
  rewrite str_all_map. revert Hs. apply str_all_impl.
  intros d. destruct Hc as [-> | ->];
    destruct d as [[] [] [] [] [] [] [] []]; by vm_compute.
Qed.

(** The header of a text whose second and third lines are the only
    header lines. *)
Lemma extract_two_lines l2 c l3 ls :
  str_without LF l2 = true → str_without LF (String c l3) = true →
  c ≠ "-"%char →
  extract_frontmatter (text ("---" :: l2 :: String c l3 :: "---" :: ls))
  = Some (l2 +:+ nl +:+ String c l3).
Proof.
  intros H2 H3 Hc. unfold extract_frontmatter. rewrite !text_cons.
  change ("---" +:+ nl +:+ l2 +:+ nl +:+ String c l3 +:+ nl +:+ "---"
          +:+ nl +:+ text ls)
    with (("---" +:+ nl)
          +:+ l2 +:+ String LF (String c l3
          +:+ String LF ("---" +:+ nl +:+ text ls))).
  rewrite (proj2 (str_after_spec _ _ _) eq_refl).
  change (nl +:+ "---") with (String LF "---").
  rewrite lazy_until_skip by done.
  rewrite (lazy_until_unfold _ (String LF _)). cbn [String.prefix].
  destruct (ascii_dec LF LF) as [_|]; [|done].
  rewrite str_app_cons. cbn [String.prefix].
  destruct (ascii_dec "-" c) as [<-|_]; [done|].
  rewrite <-str_app_cons, lazy_until_skip by done.
  rewrite (lazy_until_unfold _ (String LF _)).
  assert (String.prefix (String LF "---")
            (String LF ("---" +:+ nl +:+ text ls)) = true) as ->
    by (apply prefix_spec; by eexists).
  cbn [fmap option_fmap option_map]. by rewrite str_app_nil_r.
Qed.

Lemma hyphen_case_chars skill_name :
  hyphen_case skill_name →
  str_strip skill_name = skill_name
  ∧ str_without LF skill_name = true ∧ str_without CR skill_name = true
  ∧ str_without "/" skill_name = true ∧ skill_name ≠ "."
  ∧ str_startswith (String DQUOTE "") skill_name = false
  ∧ str_startswith "'" skill_name = false.
Proof.
  intros (Hne & Hall & _).
  split_and!; try by apply str_without_name_chars.
  - apply str_strip_nospace. revert Hall. apply str_all_impl.
    intros c Hc. apply negb_true_iff. by apply is_name_char_plain.
  - intros ->. by vm_compute in Hall.
  - destruct skill_name as [|c s]; [done|]. cbn [str_all] in Hall.
    apply andb_true_iff in Hall as [Hc _].
    apply str_startswith_first. intros <-. by vm_compute in Hc.
  - destruct skill_name as [|c s]; [done|]. cbn [str_all] in Hall.
    apply andb_true_iff in Hall as [Hc _].
    apply (str_startswith_first SQUOTE). intros <-. by vm_compute in Hc.
Qed.

(** The header of the template, parsed. *)
Lemma template_header skill_name :
  hyphen_case skill_name →
  ∃ h description,
    extract_frontmatter
      (SKILL_TEMPLATE skill_name (title_case_skill_name skill_name)) = Some h
    ∧ parse_simple_yaml h
      = <["description" := description]> (<["name" := skill_name]> ∅)
    ∧ str_strip description = description
    ∧ plain_description description.
Proof.
  intros Hname.
  destruct (hyphen_case_chars _ Hname)
    as (Htrim & Hlf & Hcr & _ & _ & Hdq & Hsq).
  destruct Hname as (Hne & Hall & _).
  unfold SKILL_TEMPLATE.
  match goal with
  | |- context [text ("---" :: ?a :: ?b :: _)] => set (l2 := a); set (l3 := b)
  end.
  assert (str_without LF l2 = true) as Hl2
    by (unfold str_without in *; subst l2; by rewrite str_all_app, Hlf).
  assert (∃ description,
            parse_line l3 = Some ("description", description)
            ∧ str_strip description = description
            ∧ plain_description description) as (description & Hl3 & Hd1 & Hd2).
  { eexists. split_and!; [reflexivity|by vm_compute|].
    unfold plain_description. split_and!; [by vm_compute..|].
    apply Nat.leb_le. by vm_compute. }
  exists (l2 +:+ nl +:+ l3), description. split_and!; [|..|done|done].
  - by apply (extract_two_lines l2 "d").
  - unfold parse_simple_yaml.
    assert (str_strip (l2 +:+ nl +:+ l3) = l2 +:+ nl +:+ l3) as ->.
    { unfold str_strip. subst l2. rewrite !str_app_assoc.
      rewrite (str_lstrip_first "n" "ame: ") by done.
      rewrite <-!str_app_assoc. rewrite str_rstrip_app; by vm_compute. }
    change (nl +:+ l3) with (String LF l3).
    rewrite str_split_app by done.
    rewrite str_split_without by reflexivity.
    unfold parse_lines. cbn [foldl]. unfold store at 2.
    subst l2.
    change ("name: " +:+ skill_name)
      with ("name" +:+ ":" +:+ " " +:+ skill_name).
    rewrite (parse_line_value "name" " " skill_name) by done.
    rewrite unquote_plain by done.
    unfold store. by rewrite Hl3.
Qed.

(** The template filled in for a hyphen-case identifier is accepted in
    a directory of that name. *)
Lemma template_valid skill_name :
  hyphen_case skill_name →
  validate_content skill_name
    (universal_newlines
       (SKILL_TEMPLATE skill_name (title_case_skill_name skill_name)))
  = (true, "Skill is valid!").
Proof.
  intros Hname.
  destruct (template_header _ Hname) as (h & description & He & Hp & Hd1 & Hd2).
  destruct (hyphen_case_chars _ Hname)
    as (Htrim & Hlf & Hcr & _ & _ & Hdq & Hsq).
  pose proof (title_without LF _ (or_introl eq_refl) Hlf) as Htlf.
  pose proof (title_without CR _ (or_intror eq_refl) Hcr) as Htcr.
  set (title := title_case_skill_name skill_name) in *.
  rewrite universal_newlines_without.
  2: { unfold SKILL_TEMPLATE. apply str_without_text; [done|].
       repeat (constructor;
               [first [ reflexivity
                      | unfold str_without in *;
                        by rewrite str_all_app, ?Hcr, ?Htcr ]|]).
       constructor. }
  apply validate_content_accepts.
  exists h, skill_name, description. split_and!; [done| | | | | |].
  - rewrite Hp, !dom_insert_L, dom_empty_L.
    apply (bool_decide_unpack _). by vm_compute.
  - rewrite Hp. by rewrite lookup_insert_ne, lookup_insert_eq.
  - rewrite Hp. by rewrite lookup_insert_eq.
  - right. by rewrite Htrim.
  - right. by rewrite Hd1.
  - unfold SKILL_TEMPLATE. rewrite str_split_text.
    + rewrite length_app. cbn [length]. lia.
    + repeat (constructor;
               [first [ reflexivity
                      | unfold str_without in *;
                        by rewrite str_all_app, ?Hlf, ?Htlf ]|]).
      constructor.
Qed.

(** In a tree, [init_skill] succeeds where nothing is at the target and
    no regular file is on the way to it. *)
Lemma init_skill_succeeds_any skill_name path w :
  fs_wf (files w) →
  stat (Path_div path skill_name) (files w) = Raise FileNotFoundError →
  ∃ w', init_skill skill_name path w
        = (w', Ok (Some (Path_div path skill_name))).
Proof.
  intros Hwf Hmiss. open_init_skill t Ht.
  destruct (mkdir_parents_total false t (files w)) as [fs1 Hmk]; [done|auto|].
  pose proof (mkdir_parents_Ok _ _ _ _ Hmk) as Ht1.
  assert (∀ x, fs1 !! (x :: t) = None) as Hone.
  { intros x. rewrite (mkdir_parents_agree _ _ _ _ _ Hmk)
      by apply suffix_cons_not.
    apply fs_wf_orphan; [done|]. by rewrite Hmiss. }
  assert (∀ x y, fs1 !! (y :: x :: t) = None) as Htwo.
  { intros x y. rewrite (mkdir_parents_agree _ _ _ _ _ Hmk) by not_suffix.
    apply fs_wf_orphan; [done|]. cbn [stat]. by rewrite Hmiss. }
  unfold Path_exists. rewrite Hmiss, Hmk. cbn [files stdout].
  rewrite (write_text_fresh "SKILL.md" t) by done. cbn [files stdout].
  set (fs2 := <[ "SKILL.md" :: t := _ ]> fs1).
  assert (stat t fs2 = Ok Dir) as Ht2
    by (subst fs2; by rewrite stat_insert_ne by not_suffix).
  rewrite (mkdir_flat_fresh _ "scripts" t)
    by (subst fs2; by rewrite ?lookup_insert_ne by (by intros [=])).
  cbn [files stdout]. set (fs3 := <[ "scripts" :: t := _ ]> fs2).
  assert (stat t fs3 = Ok Dir) as Ht3
    by (subst fs3; by rewrite stat_insert_ne by not_suffix).
  rewrite (write_text_fresh "example.py" ("scripts" :: t));
    [|subst fs3; by apply stat_insert_eq
     |subst fs3 fs2; by rewrite ?lookup_insert_ne by (by intros [=])].
  cbn [files stdout]. set (fs4 := <[ "example.py" :: _ := _ ]> fs3).
  rewrite (chmod_file _ (EXAMPLE_SCRIPT skill_name) None);
    [|subst fs4 fs3; by do 2 (apply stat_insert_eq)].
  cbn [files stdout]. set (fs5 := <[ "example.py" :: _ := _ ]> fs4).
  assert (stat t fs5 = Ok Dir) as Ht5
    by (subst fs5 fs4; by rewrite !stat_insert_ne by not_suffix).
  rewrite (mkdir_flat_fresh _ "references" t);
    [|done
     |subst fs5 fs4 fs3 fs2; by rewrite ?lookup_insert_ne by (by intros [=])].
  cbn [files stdout]. set (fs6 := <[ "references" :: t := _ ]> fs5).
  assert (stat t fs6 = Ok Dir) as Ht6
    by (subst fs6; by rewrite stat_insert_ne by not_suffix).
  rewrite (write_text_fresh "REFERENCE.md" ("references" :: t));
    [|subst fs6; by apply stat_insert_eq
     |subst fs6 fs5 fs4 fs3 fs2;
      by rewrite ?lookup_insert_ne by (by intros [=])].
  cbn [files stdout]. set (fs7 := <[ "REFERENCE.md" :: _ := _ ]> fs6).
  assert (stat t fs7 = Ok Dir) as Ht7
    by (subst fs7; by rewrite stat_insert_ne by not_suffix).
  rewrite (mkdir_flat_fresh _ "assets" t);
    [|done
     |subst fs7 fs6 fs5 fs4 fs3 fs2;
      by rewrite ?lookup_insert_ne by (by intros [=])].
  cbn [files stdout]. set (fs8 := <[ "assets" :: t := _ ]> fs7).
  rewrite (write_text_fresh "example_asset.txt" ("assets" :: t));
    [|subst fs8; by apply stat_insert_eq
     |subst fs8 fs7 fs6 fs5 fs4 fs3 fs2;
      by rewrite ?lookup_insert_ne by (by intros [=])].
  cbn [files stdout]. eauto.
Qed.


(** What [init_skill] has made for a hyphen-case identifier is named by
    it and passes [validate_skill]. *)
Lemma init_skill_created skill_name path w w' d :
  hyphen_case skill_name →
  init_skill skill_name path w = (w', Ok (Some d)) →
  d = skill_name :: path
  ∧ validate_skill d (files w') = Ok (true, "Skill is valid!").
Proof.
  intros Hname Hrun.
  destruct (hyphen_case_chars _ Hname) as (_ & _ & _ & Hslash & Hdot & _).
  assert (Path_div path skill_name = skill_name :: path) as Hdiv
    by (apply Path_div_simple; [by destruct Hname|done..]).
  destruct (init_skill_tree _ _ _ _ _ Hrun) as (-> & _ & [mode Hmd] & _).
  rewrite Hdiv in *. split; [done|].
  unfold validate_skill, Path_exists, Path_read_text.
  change (Path_div (skill_name :: path) "SKILL.md")
    with ("SKILL.md" :: skill_name :: path).
  rewrite Hmd. cbn [negb Path_name hd]. by rewrite template_valid.
Qed.

(** X12. For every hyphen-case identifier of at most 64 characters:
    whenever [init_skill] returns a directory, the directory is named
    by the identifier and [validate_skill] accepts it; and in a tree
    where the target is missing and no file is on the way, [init_skill]
    does return it. *)
Theorem init_then_validate_any skill_name path w :
  hyphen_case skill_name →
  (∀ w' (d : Path),
     init_skill skill_name path w = (w', Ok (Some d)) →
     d = skill_name :: path
     ∧ validate_skill d (files w') = Ok (true, "Skill is valid!"))
  ∧ (fs_wf (files w) →
     stat (skill_name :: path) (files w) = Raise FileNotFoundError →
     ∃ w', init_skill skill_name path w
           = (w', Ok (Some (skill_name :: path)))).
Proof.
  intros Hname. split.
  - intros w' d. by apply init_skill_created.
  - destruct (hyphen_case_chars _ Hname) as (_ & _ & _ & Hslash & Hdot & _).
    assert (Path_div path skill_name = skill_name :: path) as Hdiv
      by (apply Path_div_simple; [by destruct Hname|done..]).
    intros Hwf Hmiss. rewrite <-Hdiv in *.
    by apply init_skill_succeeds_any.
Qed.

End any_identifier.

(** ** The command lines *)

Section command_lines.

Variable resolve : string → Path.

Implicit Types (argv : list string) (w : world) (p : Path).

Lemma validate_skill_file p fs content mode :
  stat ("SKILL.md" :: p) fs = Ok (File content mode) →
  validate_skill p fs
  = Ok (validate_content (Path_name p) (universal_newlines content)).
Proof.
  intros Hmd. unfold validate_skill, Path_exists, Path_read_text.
  change (Path_div p "SKILL.md") with ("SKILL.md" :: p). by rewrite Hmd.
Qed.

Lemma validate_skill_message p fs valid message :
  validate_skill p fs = Ok (valid, message) →
  valid = true ↔ message = "Skill is valid!".
Proof.
  unfold validate_skill, Path_exists, Path_read_text.
  destruct (stat _ fs) as [[|content mode]|]; cbn [negb]; [done| |].
  - intros [= Hv]. by apply (validate_content_message _ _ _ _ Hv).
  - by intros [= <- <-].
Qed.


(** X14. [main] of [quick_validate.py] never touches the filesystem; it
    exits with status 0 exactly when it is given one argument and
    [validate_skill] accepts the directory, and exactly when the one
    line it prints is the success message; when [validate_skill] raises
    it prints nothing to the standard output. *)
Theorem quick_validate_main_status argv w w' r :
  QuickValidateMain.main resolve argv w = (w', r) →
  files w' = files w
  ∧ (exit_status r = 0
     ↔ ∃ prog arg, argv = [prog; arg]
         ∧ validate_skill (resolve arg) (files w)
           = Ok (true, "Skill is valid!"))
  ∧ (exit_status r = 0
     ↔ stdout w' = stdout w ++ [Line "Skill is valid!"])
  ∧ match r with
    | Ok _ => ∃ line, stdout w' = stdout w ++ [Line line]
    | Raise _ => stdout w' = stdout w
    end.
Proof.
  unfold QuickValidateMain.main.
  destruct argv as [|prog [|arg [|more argv]]]; cbn [length Nat.eqb negb].
  1,2,4: intros [= <- <-]; cbn [files stdout exit_status];
    (split_and!; [done| | |by eauto]);
    (split; [done|]);
    [intros (? & ? & [=] & _)|by intros [=]%(inj (app _))..].
  cbn [lookup list_lookup from_option id].
  unfold mbind, io_bind, attempt, print, mret, io_ret.
  destruct (validate_skill (resolve arg) (files w))
    as [[valid message]|e] eqn:Hv.
  - intros [= <- <-]. cbn [files stdout exit_status].
    pose proof (validate_skill_message _ _ _ _ Hv) as Hmsg.
    split_and!; [done| | |by eauto].
    + destruct valid.
      * assert (message = "Skill is valid!") as -> by (by apply Hmsg).
        split; [by eauto|done].
      * split; [done|]. intros (? & ? & [= <- <-] & Hv'). congruence.
    + destruct valid.
      * assert (message = "Skill is valid!") as -> by (by apply Hmsg). done.
      * split; [done|]. intros [= ->]%(inj (app _)).
        destruct Hmsg as [_ Hm]. by specialize (Hm eq_refl).
  - intros [= <- <-]. cbn [exit_status]. split_and!; [done| | |done].
    + split; [done|]. intros (? & ? & [= <- <-] & Hv'). congruence.
    + split; [done|]. intros Hout%(f_equal length).
      rewrite length_app in Hout. simpl in Hout. lia.
Qed.

(** The arguments that [main] of [init_skill.py] goes on with. *)
Lemma init_skill_main_usage argv :
  (length argv <? 4) || negb (String.eqb (default "" (argv !! 2)) "--path")
  = false
  ↔ ∃ prog skill_name path more,
      argv = prog :: skill_name :: "--path" :: path :: more.
Proof.
  split.
  - destruct argv as [|prog [|skill_name [|flag [|path more]]]]; try done.
    cbn [length Nat.ltb Nat.leb orb lookup list_lookup from_option id].
    intros Hflag%negb_false_iff%String.eqb_eq. subst flag. eauto.
  - by intros (prog & skill_name & path & more & ->).
Qed.


(** X16. The two command lines together: when [init_skill.py] has
    exited with status 0 for a hyphen-case identifier of at most 64
    characters, [quick_validate.py], given a path that resolves to the
    new directory, prints that the skill is valid and exits with
    status 0. *)
Theorem command_lines_compose argv w w' arg prog' :
  InitSkillMain.main resolve argv w = (w', Ok 0) →
  ∃ prog skill_name path more,
    argv = prog :: skill_name :: "--path" :: path :: more
    ∧ (hyphen_case skill_name →
       resolve arg = skill_name :: resolve path →
       QuickValidateMain.main resolve [prog'; arg] w'
       = (World (files w') (stdout w' ++ [Line "Skill is valid!"]), Ok 0)).
Proof.
  unfold InitSkillMain.main.
  destruct (_ || _) eqn:Husage; [done|].
  apply init_skill_main_usage in Husage
    as (prog & skill_name & path & more & ->).
  cbn [lookup list_lookup from_option id].
  unfold mbind at 1 2 3, io_bind at 1 2 3, print at 1 2.
  cbn [files stdout].
  set (w0 := World (files w) _).
  destruct (init_skill skill_name (resolve path) w0) as [w1 r1] eqn:Hrun.
  destruct (init_skill_Ok _ _ _ _ _ Hrun) as [result ->].
  unfold mret, io_ret. destruct result as [d|]; [|done]. intros [= <-].
  exists prog, skill_name, path, more. split; [done|].
  intros Hname Harg.
  destruct (init_skill_created _ _ _ _ _ Hname Hrun) as [-> Hvalid].
  unfold QuickValidateMain.main. cbn [length Nat.eqb negb].
  cbn [lookup list_lookup from_option id].
  unfold mbind, io_bind, attempt, print, mret, io_ret.
  by rewrite Harg, Hvalid.
Qed.

End command_lines.

(** ** What the initializer prints *)

Section reports.

Implicit Types (w : world) (path : Path).



End reports.

(** ** The properties on sample runs *)

Section sample_runs.

Lemma hyphen_case_my_skill : hyphen_case "my-skill".
Proof. split_and!; [discriminate|reflexivity..|vm_compute; lia]. Qed.

Lemma init_skill_made :
  init_skill "my-skill" ["skills"] w_skills
  = (w_made, Ok (Some ["my-skill"; "skills"])).
Proof. vm_compute. reflexivity. Qed.

Lemma init_skill_main_made :
  InitSkillMain.main resolve_root
    ["init_skill.py"; "my-skill"; "--path"; "/skills"] w_skills
  = (w_main, Ok 0).
Proof. vm_compute. reflexivity. Qed.

Lemma init_then_validate_any_witness :
  hyphen_case "my-skill"
  ∧ ∃ w', init_skill "my-skill" ["skills"] w_skills
          = (w', Ok (Some ["my-skill"; "skills"]))
          ∧ validate_skill ["my-skill"; "skills"] (files w')
            = Ok (true, "Skill is valid!").
Proof.
  split; [exact hyphen_case_my_skill|].
  destruct (init_then_validate_any "my-skill" ["skills"] w_skills
              hyphen_case_my_skill) as [Hvalid Hruns].
  destruct Hruns as [w' Hw']; [exact fs_wf_skills|reflexivity|].
  exists w'. split; [exact Hw'|]. by destruct (Hvalid _ _ Hw').
Defined.



Lemma init_skill_twice_witness :
  init_skill "my-skill" ["skills"] w_skills
  = (w_made, Ok (Some ["my-skill"; "skills"]))
  ∧ init_skill "my-skill" ["skills"] w_made
    = (World (files w_made)
         (stdout w_made
          ++ [Line ("Error: Skill directory already exists: "
                    +:+ Path_str ["my-skill"; "skills"])]),
       Ok None).
Proof.
  split; [exact init_skill_made|].
  exact (init_skill_twice _ _ _ _ _ init_skill_made).
Defined.


Lemma title_case_skill_name_shape_witness :
  str_all is_ascii "my-new-skill" = true
  ∧ String.length (title_case_skill_name "my-new-skill") = 12
  ∧ str_map to_lower (title_case_skill_name "my-new-skill")
    = "my new skill"
  ∧ str_without "-" (title_case_skill_name "my-new-skill") = true.
Proof.
  split; [reflexivity|].
  exact (title_case_skill_name_shape "my-new-skill" eq_refl).
Defined.

Lemma parse_simple_yaml_entries_witness :
  parse_simple_yaml header_duplicate !! "a" = Some "3"
  ∧ "a" ≠ "" ∧ str_all is_key_char "a" = true ∧ str_without LF "3" = true.
Proof.
  assert (parse_simple_yaml header_duplicate !! "a" = Some "3") as Ha
    by (vm_compute; reflexivity).
  split; [exact Ha|].
  exact (parse_simple_yaml_entries header_duplicate "a" "3" Ha).
Defined.

Lemma quoted_value_read_back_witness :
  parse_line ("description" +:+ ":" +:+ "  "
              +:+ String DQUOTE (" it's here " +:+ String DQUOTE ""))
  = Some ("description", " it's here ").
Proof.
  apply (quoted_value_read_back "description" "  " DQUOTE " it's here ");
    [discriminate|reflexivity..|by left].
Defined.

Lemma plain_value_read_back_witness :
  parse_line ("name" +:+ ":" +:+ " " +:+ "my-skill")
  = Some ("name", "my-skill")
  ∧ parse_line ("license" +:+ ":" +:+ "" +:+ "") = Some ("license", "").
Proof.
  split.
  - apply (plain_value_read_back "name" " " "my-skill");
      [discriminate|reflexivity..].
  - apply (plain_value_read_back "license" "" "");
      [discriminate|reflexivity..].
Defined.

Lemma header_without_colon_witness :
  extract_frontmatter doc_no_colon = Some "just some words"
  ∧ parse_simple_yaml "just some words" = ∅
  ∧ validate_content "foo" doc_no_colon
    = (false, "Missing 'name' in frontmatter").
Proof.
  assert (extract_frontmatter doc_no_colon = Some "just some words") as He
    by (vm_compute; reflexivity).
  split; [exact He|].
  exact (header_without_colon "foo" doc_no_colon "just some words" He
           eq_refl).
Defined.

Lemma quick_validate_main_status_witness :
  QuickValidateMain.main resolve_root ["quick_validate.py"; "/foo"]
    (World (fs_foo (doc_padded 0)) [])
  = (World (fs_foo (doc_padded 0)) [Line "Skill is valid!"], Ok 0)
  ∧ validate_skill (resolve_root "/foo") (fs_foo (doc_padded 0))
    = Ok (true, "Skill is valid!").
Proof.
  assert (QuickValidateMain.main resolve_root ["quick_validate.py"; "/foo"]
            (World (fs_foo (doc_padded 0)) [])
          = (World (fs_foo (doc_padded 0)) [Line "Skill is valid!"], Ok 0))
    as Hrun by (vm_compute; reflexivity).
  split; [exact Hrun|].
  destruct (quick_validate_main_status resolve_root _ _ _ _ Hrun)
    as (_ & [Hvalid _] & _).
  destruct (Hvalid eq_refl) as (prog & arg & Hargv & Hv).
  injection Hargv as _ <-. exact Hv.
Defined.


Lemma command_lines_compose_witness :
  InitSkillMain.main resolve_root
    ["init_skill.py"; "my-skill"; "--path"; "/skills"] w_skills
  = (w_main, Ok 0)
  ∧ QuickValidateMain.main resolve_root
      ["quick_validate.py"; "/skills/my-skill"] w_main
    = (World (files w_main) (stdout w_main ++ [Line "Skill is valid!"]),
       Ok 0).
Proof.
  split; [exact init_skill_main_made|].
  destruct (command_lines_compose resolve_root _ _ _ "/skills/my-skill"
              "quick_validate.py" init_skill_main_made)
    as (prog & skill_name & path & more & Hargv & Hgo).
  injection Hargv as _ <- <- _.
  apply Hgo; [exact hyphen_case_my_skill|reflexivity].
Defined.


End sample_runs.
